(** * KijkoCut: the timeline and playback engine of [App.tsx] / [CenterPanel]

    A shallow embedding of the timeline model ([handleDropOnTimeline],
    [handleUpdateTimelineAsset], [handleRemoveFromTimeline]), of the derived
    values of the center panel ([totalDuration], [activeAsset], the in-source
    offset [effectiveTime]), of the transport clock ([tick], [togglePlay],
    [handlePlayheadDrag]) and of the trim gesture ([handleMouseMove]); and
    of the code around them: the synchronisation effect, the zoom, the
    geometry of the track ([handleDrop], the pixel positions), the ruler
    ([renderRuler], [formatTime]), and the library, preview and edit
    selection of [App] ([addAssetToLibrary], [handleAssetSelectForEdit],
    [clearEditSelection], ...).

    Numbers.  The source computes on JavaScript numbers.  Times are modelled
    here as exact rationals [Q]: [+], [-], [/], [Math.max], [Math.min] and the
    comparisons are the exact ones, and rounding, [NaN] and the infinities are
    outside the model.  Equality of computed times is therefore [==] ([Qeq]);
    Leibniz equality is used where the code leaves a value untouched. *)

From Stdlib Require Import List String Ascii Bool DecimalString.
From Stdlib Require Import ZArith QArith Qminmax Qabs Qround Lqa Lia.
From Stdlib Require Import Sorted Permutation.
Import ListNotations.
Open Scope Q_scope.

(* ================================================================= *)
(** ** Data model ([types.ts]) *)

(** ['video' | 'audio' | 'image'] *)
Inductive MediaType : Type := image | video | audio.

(** Modelled from the spec: [types.ts] is not among the sources; the fields
    are those the code of [App.tsx], [CenterPanel] and [LeftPanel] reads and
    writes.  An optional field ([duration?: number]) is an [option]. *)
Module Media.
Record t : Type := mk {
  id : string;
  type : MediaType;
  url : string;
  base64 : option string;
  mimeType : option string;
  prompt : option string;
  parentAssetId : option string;
  selectedForEdit : option bool;
  duration : option Q
}.
End Media.
Definition MediaAsset : Type := Media.t.

(** Modelled from the spec: [TimelineAsset] of [types.ts], a [MediaAsset]
    with the placement fields [timelineId], [startTime], [trimStart] and
    [trimEnd]. *)
Record TimelineAsset : Type := mkTimelineAsset {
  id : string;
  type : MediaType;
  url : string;
  base64 : option string;
  mimeType : option string;
  prompt : option string;
  parentAssetId : option string;
  selectedForEdit : option bool;
  duration : option Q;
  timelineId : string;
  startTime : Q;
  trimStart : Q;
  trimEnd : Q
}.

(** [Partial<TimelineAsset>]: every field may be absent. *)
Record PartialTimelineAsset : Type := mkPartial {
  p_id : option string;
  p_type : option MediaType;
  p_url : option string;
  p_base64 : option (option string);
  p_mimeType : option (option string);
  p_prompt : option (option string);
  p_parentAssetId : option (option string);
  p_selectedForEdit : option (option bool);
  p_duration : option (option Q);
  p_timelineId : option string;
  p_startTime : option Q;
  p_trimStart : option Q;
  p_trimEnd : option Q
}.

(** The empty object literal [{}]. *)
Definition noUpdates : PartialTimelineAsset :=
  mkPartial None None None None None None None None None None None None None.

(** One field of [{ ...asset, ...updates }]: the value of [updates] when it
    carries the field, the value of [asset] otherwise. *)
Definition over {A : Type} (u : option A) (x : A) : A :=
  match u with Some y => y | None => x end.

(** [{ ...asset, ...updates }] *)
Definition spread (asset : TimelineAsset) (updates : PartialTimelineAsset)
  : TimelineAsset :=
  {| id := over (p_id updates) (id asset);
     type := over (p_type updates) (type asset);
     url := over (p_url updates) (url asset);
     base64 := over (p_base64 updates) (base64 asset);
     mimeType := over (p_mimeType updates) (mimeType asset);
     prompt := over (p_prompt updates) (prompt asset);
     parentAssetId := over (p_parentAssetId updates) (parentAssetId asset);
     selectedForEdit := over (p_selectedForEdit updates) (selectedForEdit asset);
     duration := over (p_duration updates) (duration asset);
     timelineId := over (p_timelineId updates) (timelineId asset);
     startTime := over (p_startTime updates) (startTime asset);
     trimStart := over (p_trimStart updates) (trimStart asset);
     trimEnd := over (p_trimEnd updates) (trimEnd asset) |}.

(* ================================================================= *)
(** ** [Array.prototype.sort((a, b) => a.startTime - b.startTime)] *)

(** The comparator handed to [sort]. *)
Definition compareFn (a b : TimelineAsset) : Q := startTime a - startTime b.

(** [sort] is stable, and the result of a stable sort under a consistent
    comparator is unique; it is computed here by insertion, an element
    going in front of the first element it does not exceed. *)
Fixpoint insert (a : TimelineAsset) (l : list TimelineAsset)
  : list TimelineAsset :=
  match l with
  | [] => [a]
  | b :: l' =>
      if Qle_bool (compareFn a b) 0 then a :: b :: l' else b :: insert a l'
  end.

Definition sort (l : list TimelineAsset) : list TimelineAsset :=
  fold_right insert [] l.

(** Ascending in [startTime]: every clip starts no later than every clip
    after it. *)
Definition startsBefore (a b : TimelineAsset) : Prop :=
  startTime a <= startTime b.

Definition sortedByStartTime (l : list TimelineAsset) : Prop :=
  StronglySorted startsBefore l.

(* ================================================================= *)
(** ** Timeline model ([App.tsx]) *)

(** [prev.map(asset => asset.timelineId === timelineId
                        ? { ...asset, ...updates } : asset)
        .sort((a,b) => a.startTime - b.startTime)] *)
Definition mergeInto (tid : string) (updates : PartialTimelineAsset)
  (asset : TimelineAsset) : TimelineAsset :=
  if String.eqb (timelineId asset) tid then spread asset updates else asset.

Definition handleUpdateTimelineAsset (tid : string)
  (updates : PartialTimelineAsset) (prev : list TimelineAsset)
  : list TimelineAsset :=
  sort (map (mergeInto tid updates) prev).

(** [prev.filter(a => a.timelineId !== timelineId)] *)
Definition handleRemoveFromTimeline (tid : string)
  (prev : list TimelineAsset) : list TimelineAsset :=
  filter (fun a => negb (String.eqb (timelineId a) tid)) prev.

(** The state updater of a successful drop:
    [const newAssets = [...prev, newTimelineAsset]; newAssets.sort(...)]. *)
Definition appendSorted (newTimelineAsset : TimelineAsset)
  (prev : list TimelineAsset) : list TimelineAsset :=
  sort (prev ++ [newTimelineAsset]).

(* ================================================================= *)
(** ** Derived values of the center panel *)

(** [x || 0] on an optional number: [undefined] and [0] are falsy. *)
Definition orZero (x : option Q) : Q :=
  match x with
  | Some d => if Qeq_bool d 0 then 0 else d
  | None => 0
  end.

(** [(asset.duration || 0) - asset.trimStart - asset.trimEnd] *)
Definition effectiveDuration (asset : TimelineAsset) : Q :=
  orZero (duration asset) - trimStart asset - trimEnd asset.

(** [Math.max(15, timelineAssets.reduce((max, asset) =>
       Math.max(max, asset.startTime + effectiveDuration), 0))] *)
Definition totalDuration (timelineAssets : list TimelineAsset) : Q :=
  Qmax 15
    (fold_left
       (fun max asset => Qmax max (startTime asset + effectiveDuration asset))
       timelineAssets 0).

(** [MediaAsset | TimelineAsset]: the union the preview holds, told apart
    in the source by ['timelineId' in previewAsset]. *)
Inductive Asset : Type :=
| LibraryAsset (a : MediaAsset)
| PlacedAsset (c : TimelineAsset).

(** The predicate handed to [timelineAssets.find]:
    [currentTime >= asset.startTime &&
     currentTime < asset.startTime + effectiveDuration]. *)
Definition isPlayingAt (currentTime : Q) (asset : TimelineAsset) : bool :=
  Qle_bool (startTime asset) currentTime
  && negb (Qle_bool (startTime asset + effectiveDuration asset) currentTime).

(** The [activeAsset] memo of [CenterPanel]. *)
Definition activeAsset (currentTime : Q) (timelineAssets : list TimelineAsset)
  (previewAsset : option Asset) : option Asset :=
  match previewAsset with
  | Some (PlacedAsset _) => previewAsset
  | _ =>
      match find (isPlayingAt currentTime) timelineAssets with
      | Some playingAsset => Some (PlacedAsset playingAsset)
      | None => previewAsset
      end
  end.

(** [currentTime - timelineAsset.startTime + timelineAsset.trimStart] *)
Definition effectiveTime (currentTime : Q) (timelineAsset : TimelineAsset)
  : Q :=
  currentTime - startTime timelineAsset + trimStart timelineAsset.

(** The element the synchronisation effect drives: the video element for a
    video, the audio element for an audio, none for an image. *)
Inductive OutputElement : Type := videoElement | audioElement.

Definition elementFor (t : MediaType) : option OutputElement :=
  match t with
  | video => Some videoElement
  | audio => Some audioElement
  | image => None
  end.


(* ================================================================= *)
(** ** Transport: play state and playhead *)

Definition PIXELS_PER_SECOND : Q := 50.

Record Transport : Type := mkTransport {
  isPlaying : bool;
  currentTime : Q
}.

(** [useState(false)], [useState(0)] *)
Definition initialTransport : Transport := mkTransport false 0.

(** One animation frame while playing: the updater
    [prev => { if (prev >= totalDuration) { setIsPlaying(false); return 0; }
               return prev + 1/60; }]. *)
Definition tick (totalDuration : Q) (s : Transport) : Transport :=
  if Qle_bool totalDuration (currentTime s)
  then mkTransport false 0
  else mkTransport (isPlaying s) (currentTime s + 1 / 60).

(** [setIsPlaying(!isPlaying)] *)
Definition togglePlay (s : Transport) : Transport :=
  mkTransport (negb (isPlaying s)) (currentTime s).

(** The [onMouseMove] of [handlePlayheadDrag]; [x] is
    [moveEvent.clientX - timelineRect.left]. *)
Definition onMouseMove (totalDuration zoom x scrollLeft : Q) (s : Transport)
  : Transport :=
  let newTime := Qmax 0 ((x + scrollLeft) / (PIXELS_PER_SECOND * zoom)) in
  mkTransport (isPlaying s) (Qmin newTime totalDuration).

(** What can happen to the transport between two changes of the timeline. *)
Inductive TransportEvent : Type :=
| Frame                                   (* an animation frame fires *)
| TogglePlay                              (* the play / pause button *)
| SeekToStart                             (* [setCurrentTime(0)] *)
| PlayheadDrag (zoom x scrollLeft : Q).   (* a pointer move of a scrub *)

(** Frames are requested only while [isPlaying]. *)
Definition transportStep (timelineAssets : list TimelineAsset)
  (s : Transport) (e : TransportEvent) : Transport :=
  match e with
  | Frame =>
      if isPlaying s then tick (totalDuration timelineAssets) s else s
  | TogglePlay => togglePlay s
  | SeekToStart => mkTransport (isPlaying s) 0
  | PlayheadDrag zoom x scrollLeft =>
      onMouseMove (totalDuration timelineAssets) zoom x scrollLeft s
  end.

Definition transportRun (timelineAssets : list TimelineAsset)
  (events : list TransportEvent) : Transport :=
  fold_left (transportStep timelineAssets) events initialTransport.

(* ================================================================= *)
(** ** Trim gesture ([TimelineClipItem]) *)

Inductive Side : Type := side_left | side_right.

Record ResizeState : Type := mkResizeState {
  side : Side;
  startX : Q
}.

(** [handleMouseMove]: the call of [onUpdate] it makes for a pointer at
    [clientX], if it makes one. *)
Definition handleMouseMove (resizeState : ResizeState) (asset : TimelineAsset)
  (zoom clientX : Q) : option (string * PartialTimelineAsset) :=
  let deltaX := clientX - startX resizeState in
  let deltaTime := deltaX / (PIXELS_PER_SECOND * zoom) in
  match side resizeState with
  | side_left =>
      let newTrimStart := Qmax 0 (trimStart asset + deltaTime) in
      let newStartTime := startTime asset + deltaTime in
      if Qle_bool 0 newStartTime
         && negb (Qle_bool
                    (orZero (duration asset) - newTrimStart - trimEnd asset)
                    (1 # 10))
      then Some (timelineId asset,
                 {| p_id := None; p_type := None; p_url := None;
                    p_base64 := None; p_mimeType := None; p_prompt := None;
                    p_parentAssetId := None; p_selectedForEdit := None;
                    p_duration := None; p_timelineId := None;
                    p_startTime := Some newStartTime;
                    p_trimStart := Some newTrimStart;
                    p_trimEnd := None |})
      else None
  | side_right =>
      let newTrimEnd := Qmax 0 (trimEnd asset - deltaTime) in
      if negb (Qle_bool
                 (orZero (duration asset) - trimStart asset - newTrimEnd)
                 (1 # 10))
      then Some (timelineId asset,
                 {| p_id := None; p_type := None; p_url := None;
                    p_base64 := None; p_mimeType := None; p_prompt := None;
                    p_parentAssetId := None; p_selectedForEdit := None;
                    p_duration := None; p_timelineId := None;
                    p_startTime := None;
                    p_trimStart := None;
                    p_trimEnd := Some newTrimEnd |})
      else None
  end.


(* ================================================================= *)
(** ** The platform the drop handler runs on *)

#[local] Set Warnings "-register-all".

(** Values [JSON.parse] returns. *)
Inductive JSValue : Type :=
| JNull
| JBool (b : bool)
| JNumber (q : Q)
| JString (s : string)
| JArray (elements : list JSValue)
| JObject (members : list (string * JSValue)).

(** What can be thrown inside the handler. *)
Inductive Exn : Type :=
| SyntaxError                 (* [JSON.parse] on malformed text *)
| TypeError                   (* destructuring [null] *)
| Error (message : string).   (* [new Error(message)] *)

Inductive Completion (A : Type) : Type :=
| Normal (a : A)
| Throw (e : Exn).
Arguments Normal {A} a.
Arguments Throw {A} e.

(** What the media element created by [getMediaDuration] does after
    [load()]: it fires [loadedmetadata], and [element.duration] is read, or
    it fires [error].  The duration read is optional because the handler
    guards against [undefined]. *)
Inductive MetadataEvent : Type :=
| loadedmetadata (elementDuration : option Q)
| error.

Record Platform : Type := mkPlatform {
  JSON_parse : string -> Completion JSValue;
  mediaElement : string -> MediaType -> MetadataEvent;
  randomUUID : string
}.

(** Property read [v.key] on a parsed value; [None] is [undefined].  Of
    several members with the same key, [JSON.parse] keeps the last. *)
Fixpoint lookupMember (key : string) (members : list (string * JSValue))
  : option JSValue :=
  match members with
  | [] => None
  | (k, v) :: rest =>
      match lookupMember key rest with
      | Some v' => Some v'
      | None => if String.eqb k key then Some v else None
      end
  end.

Definition getProperty (v : JSValue) (key : string) : option JSValue :=
  match v with
  | JObject members => lookupMember key members
  | _ => None
  end.

(** [x === s] for a string [s]. *)
Definition strictEqString (x : option JSValue) (s : string) : bool :=
  match x with
  | Some (JString s') => String.eqb s' s
  | _ => false
  end.

(* ================================================================= *)
(** ** State and exceptions of [App] *)

Record AppState : Type := mkAppState {
  libraryAssets : list MediaAsset;
  timelineAssets : list TimelineAsset;
  console : list (string * Exn)        (* the calls of [console.error] *)
}.

(** A computation of the component: it updates the state and completes
    normally or throws.  An [async] function is run to completion, its
    awaits in order. *)
Definition M (A : Type) : Type := AppState -> AppState * Completion A.

Definition ret {A : Type} (a : A) : M A := fun s => (s, Normal a).

Definition bind {A B : Type} (m : M A) (k : A -> M B) : M B :=
  fun s =>
    match m s with
    | (s', Normal a) => k a s'
    | (s', Throw e) => (s', Throw e)
    end.

Notation "x <- m ;; k" := (bind m (fun x => k))
  (at level 61, m at next level, right associativity).
Notation "m ;;; k" := (bind m (fun _ => k))
  (at level 61, right associativity).

Definition throw {A : Type} (e : Exn) : M A := fun s => (s, Throw e).

(** A value that is returned or thrown by the platform. *)
Definition complete {A : Type} (c : Completion A) : M A := fun s => (s, c).

(** [try { body } catch (e) { handler(e) }] *)
Definition tryCatch {A : Type} (body : M A) (handler : Exn -> M A) : M A :=
  fun s =>
    match body s with
    | (s', Normal a) => (s', Normal a)
    | (s', Throw e) => handler e s'
    end.

Definition getLibraryAssets : M (list MediaAsset) :=
  fun s => (s, Normal (libraryAssets s)).

Definition setLibraryAssets (f : list MediaAsset -> list MediaAsset)
  : M unit :=
  fun s =>
    (mkAppState (f (libraryAssets s)) (timelineAssets s) (console s),
     Normal tt).

Definition setTimelineAssets
  (f : list TimelineAsset -> list TimelineAsset) : M unit :=
  fun s =>
    (mkAppState (libraryAssets s) (f (timelineAssets s)) (console s),
     Normal tt).

Definition console_error (label : string) (e : Exn) : M unit :=
  fun s =>
    (mkAppState (libraryAssets s) (timelineAssets s)
       (console s ++ [(label, e)]),
     Normal tt).

(* ================================================================= *)
(** ** [getMediaDuration] and [handleDropOnTimeline] *)

Section DropHandler.

Variable platform : Platform.

(** The promise of [getMediaDuration], awaited: the resolved value or
    the rejection. *)
Definition getMediaDuration (url : string) (type : MediaType)
  : M (option Q) :=
  match type with
  | image => ret (Some 5)
  | _ =>
      match mediaElement platform url type with
      | loadedmetadata elementDuration => ret elementDuration
      | error =>
          throw (Error ("Failed to load media metadata for " ++ url))
      end
  end.

(** [const { type, assetId } = JSON.parse(data)] *)
Definition destructure (parsed : JSValue)
  : M (option JSValue * option JSValue) :=
  match parsed with
  | JNull => throw TypeError
  | _ => ret (getProperty parsed "type", getProperty parsed "assetId")
  end.

(** [{...a, duration}] *)
Definition withDuration (a : MediaAsset) (duration : option Q)
  : MediaAsset :=
  {| Media.id := Media.id a; Media.type := Media.type a;
     Media.url := Media.url a; Media.base64 := Media.base64 a;
     Media.mimeType := Media.mimeType a; Media.prompt := Media.prompt a;
     Media.parentAssetId := Media.parentAssetId a;
     Media.selectedForEdit := Media.selectedForEdit a;
     Media.duration := duration |}.

(** [{ ...assetToAdd, timelineId: crypto.randomUUID(),
       startTime: dropTime, duration, trimStart: 0, trimEnd: 0 }] *)
Definition newTimelineAsset (assetToAdd : MediaAsset) (dropTime : Q)
  (duration : Q) : TimelineAsset :=
  {| id := Media.id assetToAdd; type := Media.type assetToAdd;
     url := Media.url assetToAdd; base64 := Media.base64 assetToAdd;
     mimeType := Media.mimeType assetToAdd;
     prompt := Media.prompt assetToAdd;
     parentAssetId := Media.parentAssetId assetToAdd;
     selectedForEdit := Media.selectedForEdit assetToAdd;
     duration := Some duration;
     timelineId := randomUUID platform;
     startTime := dropTime;
     trimStart := 0;
     trimEnd := 0 |}.

(** The body of the [try] block. *)
Definition dropBody (data : string) (dropTime : Q) : M unit :=
  parsed <- complete (JSON_parse platform data) ;;
  fields <- destructure parsed ;;
  let '(type, assetId) := fields in
  if strictEqString type "libraryAsset" then
    library <- getLibraryAssets ;;
    match find (fun a => strictEqString assetId (Media.id a)) library with
    | Some assetToAdd =>
        duration <-
          match Media.duration assetToAdd with
          | Some d => ret (Some d)
          | None =>
              duration <- getMediaDuration (Media.url assetToAdd)
                            (Media.type assetToAdd) ;;
              setLibraryAssets
                (map (fun a =>
                        if strictEqString assetId (Media.id a)
                        then withDuration a duration else a)) ;;;
              ret duration
          end ;;
        match duration with
        | None => throw (Error "Could not determine asset duration.")
        | Some d =>
            setTimelineAssets
              (appendSorted (newTimelineAsset assetToAdd dropTime d))
        end
    | None => ret tt
    end
  else ret tt.

(** [handleDropOnTimeline]: the completion is that of the promise the
    [async] function returns ([Throw] is a rejection, which the caller
    would observe). *)
Definition handleDropOnTimeline (data : string) (dropTime : Q) : M unit :=
  tryCatch (dropBody data dropTime)
    (fun e => console_error "Failed to handle drop:" e).

End DropHandler.

(* ================================================================= *)
(** ** A model of the platform's [JSON.parse] *)

(** [JSON.parse] belongs to the JavaScript platform, not to the repository.
    The properties of the drop handler are proved for every [Platform]; the
    scenarios are run on this reader of the JSON grammar (ECMA-404): literals,
    numbers, strings with their escapes, arrays and objects, white space
    between tokens.  A [\u] escape above U+00FF is not represented and is
    refused. *)
Module JSON.

Open Scope char_scope.

Fixpoint skipWs (s : list ascii) : list ascii :=
  match s with
  | " " :: r | "009" :: r | "010" :: r | "013" :: r => skipWs r
  | _ => s
  end.

Definition isDigit (c : ascii) : bool :=
  Nat.leb 48 (nat_of_ascii c) && Nat.leb (nat_of_ascii c) 57.

Definition digitValue (c : ascii) : Z := Z.of_nat (nat_of_ascii c - 48).

Definition hexValue (c : ascii) : option nat :=
  let n := nat_of_ascii c in
  if Nat.leb 48 n && Nat.leb n 57 then Some (n - 48)%nat
  else if Nat.leb 65 n && Nat.leb n 70 then Some (n - 55)%nat
  else if Nat.leb 97 n && Nat.leb n 102 then Some (n - 87)%nat
  else None.

(** The characters of a string literal after its opening quote. *)
Fixpoint parseChars (s : list ascii) : option (string * list ascii) :=
  let cons c r :=
    match parseChars r with
    | Some (str, r') => Some (String c str, r')
    | None => None
    end in
  match s with
  | [] => None
  | "034" :: r => Some (EmptyString, r)
  | "\" :: "034" :: r => cons "034" r
  | "\" :: "\" :: r => cons "\" r
  | "\" :: "/" :: r => cons "/" r
  | "\" :: "b" :: r => cons "008" r
  | "\" :: "f" :: r => cons "012" r
  | "\" :: "n" :: r => cons "010" r
  | "\" :: "r" :: r => cons "013" r
  | "\" :: "t" :: r => cons "009" r
  | "\" :: "u" :: h1 :: h2 :: h3 :: h4 :: r =>
      match hexValue h1, hexValue h2, hexValue h3, hexValue h4 with
      | Some 0%nat, Some 0%nat, Some a, Some b =>
          cons (ascii_of_nat (16 * a + b)) r
      | _, _, _, _ => None
      end
  | "\" :: _ => None
  | c :: r => if Nat.ltb (nat_of_ascii c) 32 then None else cons c r
  end.

Fixpoint takeDigits (s : list ascii) : list ascii * list ascii :=
  match s with
  | c :: r =>
      if isDigit c
      then let '(ds, r') := takeDigits r in (c :: ds, r')
      else ([], s)
  | [] => ([], [])
  end.

Definition digitsValue (ds : list ascii) : Z :=
  fold_left (fun n c => (10 * n + digitValue c)%Z) ds 0%Z.

(** [-? int frac? exp?] *)
Definition parseNumber (s : list ascii) : option (Q * list ascii) :=
  let '(negative, s1) :=
    match s with "-" :: r => (true, r) | _ => (false, s) end in
  let '(int, s2) := takeDigits s1 in
  match int with
  | [] => None
  | "0" :: _ :: _ => None
  | _ =>
      let fraction :=
        match s2 with
        | "." :: r =>
            let '(ds, r') := takeDigits r in
            match ds with
            | [] => None
            | _ => Some (inject_Z (digitsValue ds)
                         / inject_Z (10 ^ Z.of_nat (List.length ds)), r')
            end
        | _ => Some (0%Q, s2)
        end in
      match fraction with
      | None => None
      | Some (frac, s3) =>
          let exponent :=
            match s3 with
            | "e" :: r | "E" :: r =>
                let '(minus, r1) :=
                  match r with
                  | "-" :: r' => (true, r')
                  | "+" :: r' => (false, r')
                  | _ => (false, r)
                  end in
                let '(ds, r2) := takeDigits r1 in
                match ds with
                | [] => None
                | _ => Some ((if minus then - digitsValue ds
                              else digitsValue ds)%Z, r2)
                end
            | _ => Some (0%Z, s3)
            end in
          match exponent with
          | None => None
          | Some (e, s4) =>
              let magnitude :=
                ((inject_Z (digitsValue int) + frac) * (10 ^ e))%Q in
              Some (if negative then (- magnitude)%Q else magnitude, s4)
          end
      end
  end.

Fixpoint parseValue (fuel : nat) (s : list ascii)
  : option (JSValue * list ascii) :=
  match fuel with
  | O => None
  | S fuel' =>
      match skipWs s with
      | "n" :: "u" :: "l" :: "l" :: r => Some (JNull, r)
      | "t" :: "r" :: "u" :: "e" :: r => Some (JBool true, r)
      | "f" :: "a" :: "l" :: "s" :: "e" :: r => Some (JBool false, r)
      | "034" :: r =>
          match parseChars r with
          | Some (str, r') => Some (JString str, r')
          | None => None
          end
      | "[" :: r =>
          match skipWs r with
          | "]" :: r' => Some (JArray [], r')
          | _ =>
              match parseElements fuel' r with
              | Some (vs, r') => Some (JArray vs, r')
              | None => None
              end
          end
      | "{" :: r =>
          match skipWs r with
          | "}" :: r' => Some (JObject [], r')
          | _ =>
              match parseMembers fuel' r with
              | Some (ms, r') => Some (JObject ms, r')
              | None => None
              end
          end
      | s' =>
          match parseNumber s' with
          | Some (q, r) => Some (JNumber q, r)
          | None => None
          end
      end
  end

with parseElements (fuel : nat) (s : list ascii)
  : option (list JSValue * list ascii) :=
  match fuel with
  | O => None
  | S fuel' =>
      match parseValue fuel' s with
      | None => None
      | Some (v, r) =>
          match skipWs r with
          | "]" :: r' => Some ([v], r')
          | "," :: r' =>
              match parseElements fuel' r' with
              | Some (vs, r'') => Some (v :: vs, r'')
              | None => None
              end
          | _ => None
          end
      end
  end

with parseMembers (fuel : nat) (s : list ascii)
  : option (list (string * JSValue) * list ascii) :=
  match fuel with
  | O => None
  | S fuel' =>
      match skipWs s with
      | "034" :: r =>
          match parseChars r with
          | None => None
          | Some (key, r1) =>
              match skipWs r1 with
              | ":" :: r2 =>
                  match parseValue fuel' r2 with
                  | None => None
                  | Some (v, r3) =>
                      match skipWs r3 with
                      | "}" :: r4 => Some ([(key, v)], r4)
                      | "," :: r4 =>
                          match parseMembers fuel' r4 with
                          | Some (ms, r5) => Some ((key, v) :: ms, r5)
                          | None => None
                          end
                      | _ => None
                      end
                  end
              | _ => None
              end
          end
      | _ => None
      end
  end.

(** The text of a string literal: [JSON.stringify] on a string. *)
Definition hexDigit (n : nat) : ascii :=
  if Nat.ltb n 10 then ascii_of_nat (48 + n) else ascii_of_nat (87 + n).

Fixpoint escapeChars (s : string) : string :=
  match s with
  | EmptyString => EmptyString
  | String c r =>
      let rest := escapeChars r in
      match c with
      | "034" => String "\" (String "034" rest)
      | "\" => String "\" (String "\" rest)
      | "008" => String "\" (String "b" rest)
      | "012" => String "\" (String "f" rest)
      | "010" => String "\" (String "n" rest)
      | "013" => String "\" (String "r" rest)
      | "009" => String "\" (String "t" rest)
      | _ =>
          let n := nat_of_ascii c in
          if Nat.ltb n 32
          then String "\" (String "u" (String "0" (String "0"
                 (String (hexDigit (Nat.div n 16))
                    (String (hexDigit (Nat.modulo n 16)) rest)))))
          else String c rest
      end
  end.

Definition quote (s : string) : string :=
  String "034" (escapeChars s ++ String "034" EmptyString)%string.

(** [JSON.stringify] on an object literal whose values are strings. *)
Fixpoint stringifyMembers (members : list (string * string)) : string :=
  match members with
  | [] => EmptyString
  | [(k, v)] => (quote k ++ ":" ++ quote v)%string
  | (k, v) :: rest =>
      (quote k ++ ":" ++ quote v ++ "," ++ stringifyMembers rest)%string
  end.

Definition stringify (members : list (string * string)) : string :=
  ("{" ++ stringifyMembers members ++ "}")%string.

(** Every call consumes a character within two levels, so twice the
    length of the text is fuel enough. *)
Definition parse (text : string) : Completion JSValue :=
  let s := list_ascii_of_string text in
  match parseValue (2 * List.length s + 2) s with
  | Some (v, r) =>
      match skipWs r with
      | [] => Normal v
      | _ => Throw SyntaxError
      end
  | None => Throw SyntaxError
  end.

End JSON.

(* ================================================================= *)
(** ** Drag payloads *)

(** [handleDragStart] of [LeftPanel]:
    [JSON.stringify({ type: 'libraryAsset', assetId: asset.id })]. *)
Definition libraryDragStart (asset : MediaAsset) : string :=
  JSON.stringify
    [("type", "libraryAsset"); ("assetId", Media.id asset)]%string.

(** [handleDragStart] of [TimelineClipItem]:
    [JSON.stringify({type: 'timelineAsset', assetId: asset.id,
                     timelineId: asset.timelineId})]. *)
Definition handleDragStart (asset : TimelineAsset) : string :=
  JSON.stringify
    [("type", "timelineAsset"); ("assetId", id asset);
     ("timelineId", timelineId asset)]%string.

(** A browser: the model of [JSON.parse], a network on which media either
    load with the duration [loads url] or fail, and the identifier the next
    [crypto.randomUUID()] returns. *)
Definition browser (loads : string -> option Q) (uuid : string) : Platform :=
  {| JSON_parse := JSON.parse;
     mediaElement := fun url _ =>
       match loads url with
       | Some d => loadedmetadata (Some d)
       | None => error
       end;
     randomUUID := uuid |}.

(* ================================================================= *)
(** ** Predicates, clips and states the properties are stated on *)

(** The payload names an asset of the library: its [type] is
    ['libraryAsset'] and [libraryAssets.find] finds its [assetId]. *)
Definition knownLibraryAsset (s : AppState) (parsed : JSValue)
  (assetToAdd : MediaAsset) : Prop :=
  parsed <> JNull /\
  strictEqString (getProperty parsed "type") "libraryAsset" = true /\
  find (fun a => strictEqString (getProperty parsed "assetId") (Media.id a))
    (libraryAssets s) = Some assetToAdd.

(** The state after [console.error(label, e)]. *)
Definition logged (s : AppState) (e : Exn) : AppState :=
  mkAppState (libraryAssets s) (timelineAssets s)
    (console s ++ [("Failed to handle drop:"%string, e)]).

Definition libraryVideo (name : string) (d : option Q) : MediaAsset :=
  Media.mk name video ("blob:" ++ name) None None None None None d.

Definition clip (tid : string) (start d : Q) : TimelineAsset :=
  {| id := "asset-" ++ tid; type := video; url := "blob:" ++ tid;
     base64 := None; mimeType := None; prompt := None;
     parentAssetId := None; selectedForEdit := None;
     duration := Some d; timelineId := tid;
     startTime := start; trimStart := 0; trimEnd := 0 |}.

(** Two clips of five seconds, one after the other. *)
Definition twoClips : list TimelineAsset := [clip "t1" 0 5; clip "t2" 5 5].

Definition editor (library : list MediaAsset)
  (timeline : list TimelineAsset) : AppState :=
  mkAppState library timeline [].

Definition clipEnd (asset : TimelineAsset) : Q :=
  startTime asset + effectiveDuration asset.

(** No clip of the timeline is selected for preview: the preview is empty
    or holds an asset of the library. *)
Definition noClipSelected (previewAsset : option Asset) : Prop :=
  forall c, previewAsset <> Some (PlacedAsset c).

(** [{ trimStart: newTrimStart, startTime: newStartTime }] *)
Definition leftTrimUpdate (newTrimStart newStartTime : Q)
  : PartialTimelineAsset :=
  mkPartial None None None None None None None None None None
    (Some newStartTime) (Some newTrimStart) None.


(** The clip of scenario C, and the same clip after the accepted drag. *)
Definition tenSeconds : TimelineAsset := clip "t1" 2 10.

(** The payload is not JSON text, or what it holds names no asset of the
    library. *)
Definition malformedPayload (platform : Platform) (s : AppState)
  (data : string) : Prop :=
  (exists e, JSON_parse platform data = Throw e)
  \/ (exists parsed,
        JSON_parse platform data = Normal parsed
        /\ ~ exists assetToAdd, knownLibraryAsset s parsed assetToAdd).

(** The duration of [assetToAdd] is not known and [getMediaDuration] does
    not produce one: the media element fires [error] (the promise is
    rejected) or the promise resolves to [undefined].  For an image the
    promise always resolves to 5. *)
Definition resolutionFails (platform : Platform) (assetToAdd : MediaAsset)
  : Prop :=
  Media.duration assetToAdd = None
  /\ Media.type assetToAdd <> image
  /\ (mediaElement platform (Media.url assetToAdd) (Media.type assetToAdd)
      = error
      \/ mediaElement platform (Media.url assetToAdd)
           (Media.type assetToAdd)
         = loadedmetadata None).

(** A library with one video whose duration is not known yet, and a
    network on which no media loads. *)
Definition pendingVideo : MediaAsset := libraryVideo "a1" None.
Definition offline : Platform := browser (fun _ => None) "u1".

(** The clips that start no later than [x]. *)
Definition notAfter (x c : TimelineAsset) : bool :=
  Qle_bool (startTime c) (startTime x).

(* ================================================================= *)
(** ** The synchronisation effect of [CenterPanel] *)

(** [activeAsset.type] and [activeAsset.url], on either kind of asset. *)
Definition assetType (a : Asset) : MediaType :=
  match a with
  | LibraryAsset m => Media.type m
  | PlacedAsset c => type c
  end.

Definition assetUrl (a : Asset) : string :=
  match a with
  | LibraryAsset m => Media.url m
  | PlacedAsset c => url c
  end.

(** What the effect reads from a mounted element: [element.src], and
    [element.currentTime] at the moment of the comparison. *)
Record ElementReads : Type := mkElementReads {
  src : string;
  elementTime : Q
}.

(** [videoRef.current] and [audioRef.current]; [None] is [null], the element
    is not mounted. *)
Record Refs : Type := mkRefs {
  videoRef : option ElementReads;
  audioRef : option ElementReads
}.

Definition refOf (element : OutputElement) (refs : Refs)
  : option ElementReads :=
  match element with
  | videoElement => videoRef refs
  | audioElement => audioRef refs
  end.

(** What the effect does to the elements. *)
Inductive Command : Type :=
| SetSrc (element : OutputElement) (url : string)  (* [element.src = url] *)
| Seek (element : OutputElement) (time : Q)   (* [element.currentTime = t] *)
| Play (element : OutputElement)              (* [element.play()] *)
| Pause (element : OutputElement).            (* [element.pause()] *)

(** [video?.pause()], [audio?.pause()] *)
Definition pauseIfMounted (element : OutputElement) (refs : Refs)
  : list Command :=
  match refOf element refs with
  | Some _ => [Pause element]
  | None => []
  end.

(** The effect on [activeAsset, isPlaying, currentTime], as the commands it
    issues, in order. *)
Definition syncEffect (activeAsset : option Asset) (isPlaying : bool)
  (currentTime : Q) (refs : Refs) : list Command :=
  match activeAsset with
  | None => pauseIfMounted videoElement refs ++ pauseIfMounted audioElement refs
  | Some active =>
      match elementFor (assetType active) with
      | None => []
      | Some element =>
          match refOf element refs with
          | None => []
          | Some reads =>
              (if String.eqb (assetUrl active) (src reads)
               then []
               else [SetSrc element (assetUrl active)])
              ++ (if isPlaying
                  then
                    match active with
                    | PlacedAsset timelineAsset =>
                        let effectiveTime :=
                          effectiveTime currentTime timelineAsset in
                        if negb (Qle_bool
                                   (Qabs (elementTime reads - effectiveTime))
                                   (2 # 10))
                        then [Seek element effectiveTime]
                        else []
                    | LibraryAsset _ => []
                    end
                    ++ [Play element]
                  else [Pause element])
          end
      end
  end.

(* ================================================================= *)
(** ** Zoom and the geometry of the track ([CenterPanel]) *)

(** The zoom buttons and the zoom slider:
    [setZoom(z => Math.max(0.1, z-0.1))], [setZoom(z => Math.min(5, z+0.1))]
    and [setZoom(parseFloat(e.target.value))]. *)
Inductive ZoomEvent : Type :=
| ZoomOut
| ZoomIn
| ZoomSlider (value : Q).

Definition zoomStep (z : Q) (e : ZoomEvent) : Q :=
  match e with
  | ZoomOut => Qmax (1 # 10) (z - (1 # 10))
  | ZoomIn => Qmin 5 (z + (1 # 10))
  | ZoomSlider value => value
  end.

(** [useState(1)] *)
Definition initialZoom : Q := 1.

Definition zoomRun (events : list ZoomEvent) : Q :=
  fold_left zoomStep events initialZoom.

(** The [left] of the playhead, in pixels:
    [currentTime * PIXELS_PER_SECOND * zoom]. *)
Definition playheadLeft (zoom : Q) (s : Transport) : Q :=
  currentTime s * PIXELS_PER_SECOND * zoom.

(** The [left] and the [width] of a clip, in pixels:
    [asset.startTime * PIXELS_PER_SECOND * zoom] and
    [effectiveDuration * PIXELS_PER_SECOND * zoom]. *)
Definition clipLeft (zoom : Q) (asset : TimelineAsset) : Q :=
  startTime asset * PIXELS_PER_SECOND * zoom.

Definition clipWidth (zoom : Q) (asset : TimelineAsset) : Q :=
  effectiveDuration asset * PIXELS_PER_SECOND * zoom.

(** The width of the track: [totalDuration * PIXELS_PER_SECOND * zoom]. *)
Definition trackWidth (zoom : Q) (timelineAssets : list TimelineAsset) : Q :=
  totalDuration timelineAssets * PIXELS_PER_SECOND * zoom.

(** [handleDrop] of [CenterPanel], the track being mounted; [x] is
    [e.clientX - rect.left] and [data] is
    [e.dataTransfer.getData('application/json')]. *)
Definition handleDrop (platform : Platform) (zoom x scrollLeft : Q)
  (data : string) : M unit :=
  let dropTime := (x + scrollLeft) / (PIXELS_PER_SECOND * zoom) in
  handleDropOnTimeline platform data dropTime.

(** [{ trimEnd: newTrimEnd }] *)
Definition rightTrimUpdate (newTrimEnd : Q) : PartialTimelineAsset :=
  mkPartial None None None None None None None None None None
    None None (Some newTrimEnd).

(* ================================================================= *)
(** ** [formatTime] and the ruler ([CenterPanel]) *)

(** [n.toString()] for a number that is an integer (below 10^21, where the
    platform switches to exponent notation). *)
Definition integerToString (n : Z) : string :=
  NilZero.string_of_int (Z.to_int n).

(** [s.padStart(targetLength, pad)], [pad] being one character. *)
Definition padStart (targetLength : nat) (pad : ascii) (s : string) : string :=
  string_of_list_ascii (repeat pad (targetLength - String.length s))
  ++ s.

(** [x % y]: the remainder has the sign of [x], the quotient is truncated
    towards 0. *)
Definition remainder (x y : Q) : Q :=
  x - y * inject_Z (Z.quot (Qnum (x / y)) (Z.pos (Qden (x / y)))).

(** [x.toFixed(1)] (below 10^21): the integer [n] with [n / 10] nearest to
    [x], the larger one of two, written with a point before its last
    digit, after the sign. *)
Definition toFixed1 (x : Q) : string :=
  let sign := if Qle_bool 0 x then ""%string else "-"%string in
  let x := if Qle_bool 0 x then x else - x in
  let n := Qfloor (x * 10 + (1 # 2)) in
  let m := integerToString n in
  let m := padStart 2 "0" m in
  let k := String.length m in
  (sign ++ substring 0 (k - 1) m ++ "." ++ substring (k - 1) 1 m)%string.

(** [formatTime] *)
Definition formatTime (time totalDuration : Q) : string :=
  if negb (Qle_bool 60 totalDuration)
  then (toFixed1 time ++ "s")%string
  else
    let minutes := Qfloor (time / 60) in
    let seconds := Qfloor (remainder time 60) in
    (integerToString minutes ++ ":"
     ++ padStart 2 "0" (integerToString seconds))%string.

(** A tick of the ruler: its time [i] (drawn at
    [i * PIXELS_PER_SECOND * zoom]), its label, and the times of its minor
    ticks. *)
Record RulerTick : Type := mkRulerTick {
  tickTime : Q;
  tickLabel : string;
  minorTicks : list Q
}.

(** [zoom > 0.5 ? 1 : zoom > 0.2 ? 5 : 10] *)
Definition rulerInterval (zoom : Q) : Q :=
  if negb (Qle_bool zoom (5 # 10)) then 1
  else if negb (Qle_bool zoom (2 # 10)) then 5
  else 10.

(** The inner loop: [j] from 1 to 4, [time = i + (j * interval/5)], kept
    when [time < totalDuration]; only when [zoom > 0.8]. *)
Definition rulerMinorTicks (totalDuration zoom interval i : Q) : list Q :=
  if negb (Qle_bool zoom (8 # 10))
  then filter (fun time => negb (Qle_bool totalDuration time))
         (map (fun j => i + (j * interval / 5)) [1; 2; 3; 4])
  else [].

(** The outer loop [for (let i = 0; i <= totalDuration; i += interval)],
    from [i] on; [None] when the fuel runs out before the loop ends. *)
Fixpoint rulerLoop (fuel : nat) (totalDuration zoom interval i : Q)
  : option (list RulerTick) :=
  match fuel with
  | O => None
  | S fuel' =>
      if Qle_bool i totalDuration
      then
        match rulerLoop fuel' totalDuration zoom interval (i + interval) with
        | Some ticks =>
            Some (mkRulerTick i (formatTime i totalDuration)
                    (rulerMinorTicks totalDuration zoom interval i)
                  :: ticks)
        | None => None
        end
      else Some []
  end.

(** [renderRuler]; the loop runs [floor(totalDuration / interval) + 1]
    times and tests once more. *)
Definition renderRuler (totalDuration zoom : Q) : option (list RulerTick) :=
  let interval := rulerInterval zoom in
  rulerLoop (S (S (Z.to_nat (Qfloor (totalDuration / interval)))))
    totalDuration zoom interval 0.

(* ================================================================= *)
(** ** Preview and edit selection ([App]) *)

(** The three pieces of state of [App] behind the library, the timeline
    and the preview. *)
Record EditorState : Type := mkEditorState {
  app : AppState;
  previewAsset : option Asset;
  selectedAssetForEdit : option MediaAsset
}.

(** The state of [App] when it mounts. *)
Definition initialEditor : EditorState :=
  mkEditorState (mkAppState [] [] []) None None.

(** [{...a, selectedForEdit: b}] on an asset of the library. *)
Definition withSelected (a : MediaAsset) (b : bool) : MediaAsset :=
  {| Media.id := Media.id a; Media.type := Media.type a;
     Media.url := Media.url a; Media.base64 := Media.base64 a;
     Media.mimeType := Media.mimeType a; Media.prompt := Media.prompt a;
     Media.parentAssetId := Media.parentAssetId a;
     Media.selectedForEdit := Some b;
     Media.duration := Media.duration a |}.

(** [{...prev, selectedForEdit: b}] on the preview. *)
Definition previewWithSelected (prev : Asset) (b : bool) : Asset :=
  match prev with
  | LibraryAsset a => LibraryAsset (withSelected a b)
  | PlacedAsset c =>
      PlacedAsset
        (spread c
           (mkPartial None None None None None None None (Some (Some b))
              None None None None None))
  end.

(** [prev.id] *)
Definition assetId (x : Asset) : string :=
  match x with
  | LibraryAsset a => Media.id a
  | PlacedAsset c => id c
  end.

(** [selectedAssetForEdit?.id === asset.id] *)
Definition isSelectedForEdit (e : EditorState) (asset : MediaAsset) : bool :=
  match selectedAssetForEdit e with
  | Some selected => String.eqb (Media.id selected) (Media.id asset)
  | None => false
  end.

Definition setLibrary (s : AppState) (library : list MediaAsset) : AppState :=
  mkAppState library (timelineAssets s) (console s).

(** [clearEditSelection] *)
Definition clearEditSelection (e : EditorState) : EditorState :=
  {| app := setLibrary (app e)
              (map (fun a => withSelected a false) (libraryAssets (app e)));
     previewAsset :=
       match previewAsset e with
       | Some prev => Some (previewWithSelected prev false)
       | None => None
       end;
     selectedAssetForEdit := None |}.

(** [handleSelectLibraryAsset] *)
Definition handleSelectLibraryAsset (asset : MediaAsset) (e : EditorState)
  : EditorState :=
  let e1 := mkEditorState (app e) (Some (LibraryAsset asset))
              (selectedAssetForEdit e) in
  if isSelectedForEdit e asset then clearEditSelection e1 else e1.

(** [handleSelectTimelineAsset] *)
Definition handleSelectTimelineAsset (asset : TimelineAsset)
  (e : EditorState) : EditorState :=
  mkEditorState (app e) (Some (PlacedAsset asset)) (selectedAssetForEdit e).

(** [handleAssetSelectForEdit] *)
Definition handleAssetSelectForEdit (asset : MediaAsset) (e : EditorState)
  : EditorState :=
  if isSelectedForEdit e asset then clearEditSelection e
  else
    {| app := setLibrary (app e)
                (map (fun a =>
                        if String.eqb (Media.id a) (Media.id asset)
                        then withSelected a true else withSelected a false)
                   (libraryAssets (app e)));
       previewAsset :=
         match previewAsset e with
         | Some prev =>
             if String.eqb (assetId prev) (Media.id asset)
             then Some (previewWithSelected prev true) else Some prev
         | None => None
         end;
       selectedAssetForEdit := Some asset |}.

(** [handleAssetClick] of [CenterPanel]: a click on the preview area
    selects the previewed library asset for edit. *)
Definition handleAssetClick (e : EditorState) : EditorState :=
  match previewAsset e with
  | Some (LibraryAsset a) => handleAssetSelectForEdit a e
  | _ => e
  end.

(** [{ ...newAsset, id: crypto.randomUUID(), duration }]; the [id] of
    [newAsset] is the field its type omits. *)
Definition assetWithId (platform : Platform) (newAsset : MediaAsset)
  (duration : option Q) : MediaAsset :=
  {| Media.id := randomUUID platform; Media.type := Media.type newAsset;
     Media.url := Media.url newAsset; Media.base64 := Media.base64 newAsset;
     Media.mimeType := Media.mimeType newAsset;
     Media.prompt := Media.prompt newAsset;
     Media.parentAssetId := Media.parentAssetId newAsset;
     Media.selectedForEdit := Media.selectedForEdit newAsset;
     Media.duration := duration |}.

(** [addAssetToLibrary]: the completion is that of its promise; nothing
    catches the rejection of [getMediaDuration]. *)
Definition addAssetToLibrary (platform : Platform) (newAsset : MediaAsset)
  (e : EditorState) : EditorState * Completion unit :=
  match getMediaDuration platform (Media.url newAsset) (Media.type newAsset)
          (app e) with
  | (_, Throw err) => (e, Throw err)
  | (_, Normal duration) =>
      let added := assetWithId platform newAsset duration in
      (clearEditSelection
         {| app := setLibrary (app e) (added :: libraryAssets (app e));
            previewAsset := Some (LibraryAsset added);
            selectedAssetForEdit := selectedAssetForEdit e |},
       Normal tt)
  end.

(** [handleDropOnTimeline] in the state of [App]. *)
Definition dropOnTimeline (platform : Platform) (data : string)
  (dropTime : Q) (e : EditorState) : EditorState :=
  mkEditorState (fst (handleDropOnTimeline platform data dropTime (app e)))
    (previewAsset e) (selectedAssetForEdit e).

(** What the user and the generators do to the library and the
    selection. *)
Inductive EditorEvent : Type :=
| SelectLibraryAsset (asset : MediaAsset)
| SelectTimelineAsset (asset : TimelineAsset)
| AssetSelectForEdit (asset : MediaAsset)
| AssetClick
| ClearEditSelection
| AddAssetToLibrary (platform : Platform) (newAsset : MediaAsset)
| DropOnTimeline (platform : Platform) (data : string) (dropTime : Q)
| UpdateTimelineAsset (tid : string) (updates : PartialTimelineAsset)
| RemoveFromTimeline (tid : string).

Definition setTimeline (s : AppState) (timeline : list TimelineAsset)
  : AppState :=
  mkAppState (libraryAssets s) timeline (console s).

Definition editorStep (e : EditorState) (event : EditorEvent) : EditorState :=
  match event with
  | SelectLibraryAsset asset => handleSelectLibraryAsset asset e
  | SelectTimelineAsset asset => handleSelectTimelineAsset asset e
  | AssetSelectForEdit asset => handleAssetSelectForEdit asset e
  | AssetClick => handleAssetClick e
  | ClearEditSelection => clearEditSelection e
  | AddAssetToLibrary platform newAsset =>
      fst (addAssetToLibrary platform newAsset e)
  | DropOnTimeline platform data dropTime =>
      dropOnTimeline platform data dropTime e
  | UpdateTimelineAsset tid updates =>
      mkEditorState
        (setTimeline (app e)
           (handleUpdateTimelineAsset tid updates (timelineAssets (app e))))
        (previewAsset e) (selectedAssetForEdit e)
  | RemoveFromTimeline tid =>
      mkEditorState
        (setTimeline (app e)
           (handleRemoveFromTimeline tid (timelineAssets (app e))))
        (previewAsset e) (selectedAssetForEdit e)
  end.

Definition editorRun (events : list EditorEvent) : EditorState :=
  fold_left editorStep events initialEditor.

(** The flags of the library agree with the selection: an asset of the
    library is flagged exactly when the asset selected for edit has its
    [id]. *)
Definition flagsAgree (e : EditorState) : Prop :=
  forall a, In a (libraryAssets (app e)) ->
    (Media.selectedForEdit a = Some true
     <-> exists selected,
           selectedAssetForEdit e = Some selected
           /\ Media.id selected = Media.id a).



(* ================================================================= *)
(** * Properties *)

(** ** Comparisons *)

Lemma Qle_bool_true (x y : Q) : Qle_bool x y = true <-> x <= y.
Proof. apply Qle_bool_iff. Qed.

Lemma Qle_bool_false (x y : Q) : Qle_bool x y = false <-> y < x.
Proof.
  split; intro H.
  - apply Qnot_le_lt. intro Hle. apply Qle_bool_true in Hle. congruence.
  - destruct (Qle_bool x y) eqn:E; [|reflexivity].
    apply Qle_bool_true in E. exfalso. apply (Qlt_not_le _ _ H E).
Qed.

Lemma compareFn_le (a b : TimelineAsset) :
  Qle_bool (compareFn a b) 0 = true <-> startsBefore a b.
Proof.
  rewrite Qle_bool_true. unfold compareFn, startsBefore. split; intro; lra.
Qed.

Lemma compareFn_gt (a b : TimelineAsset) :
  Qle_bool (compareFn a b) 0 = false -> startsBefore b a.
Proof.
  rewrite Qle_bool_false. unfold compareFn, startsBefore. intro; lra.
Qed.

Lemma startsBefore_trans (a b c : TimelineAsset) :
  startsBefore a b -> startsBefore b c -> startsBefore a c.
Proof. unfold startsBefore. intros; lra. Qed.

(** ** The sort *)

Lemma insert_perm (a : TimelineAsset) (l : list TimelineAsset) :
  Permutation (insert a l) (a :: l).
Proof.
  induction l as [|b l IH]; simpl.
  - apply Permutation_refl.
  - destruct (Qle_bool (compareFn a b) 0).
    + apply Permutation_refl.
    + apply perm_trans with (b :: a :: l).
      * apply perm_skip, IH.
      * apply perm_swap.
Qed.

Lemma sort_perm (l : list TimelineAsset) : Permutation (sort l) l.
Proof.
  induction l as [|a l IH]; simpl.
  - apply perm_nil.
  - apply perm_trans with (a :: sort l).
    + apply insert_perm.
    + apply perm_skip, IH.
Qed.

Lemma insert_Forall (P : TimelineAsset -> Prop) a l :
  P a -> Forall P l -> Forall P (insert a l).
Proof.
  intros Ha Hl.
  apply (Permutation_Forall (Permutation_sym (insert_perm a l))).
  constructor; assumption.
Qed.

Lemma insert_sorted (a : TimelineAsset) (l : list TimelineAsset) :
  sortedByStartTime l -> sortedByStartTime (insert a l).
Proof.
  unfold sortedByStartTime.
  induction l as [|b l IH]; simpl; intro Hs.
  - constructor; [constructor | constructor].
  - apply StronglySorted_inv in Hs as [Hl Hb].
    destruct (Qle_bool (compareFn a b) 0) eqn:E.
    + apply compareFn_le in E.
      constructor.
      * constructor; assumption.
      * constructor; [exact E|].
        eapply Forall_impl; [|exact Hb].
        intros c Hc. exact (startsBefore_trans _ _ _ E Hc).
    + apply compareFn_gt in E.
      constructor.
      * apply IH, Hl.
      * apply insert_Forall; assumption.
Qed.

Lemma sort_sorted (l : list TimelineAsset) : sortedByStartTime (sort l).
Proof.
  induction l as [|a l IH]; simpl.
  - constructor.
  - apply insert_sorted, IH.
Qed.

(** A sorted array is left as it is: the sort is stable. *)
Lemma sort_sorted_id (l : list TimelineAsset) :
  sortedByStartTime l -> sort l = l.
Proof.
  unfold sortedByStartTime.
  induction l as [|a l IH]; simpl; intro Hs; [reflexivity|].
  apply StronglySorted_inv in Hs as [Hl Ha].
  rewrite (IH Hl).
  destruct l as [|b l]; [reflexivity|]. simpl.
  apply Forall_inv in Ha. apply compareFn_le in Ha. rewrite Ha. reflexivity.
Qed.

Lemma filter_sorted (f : TimelineAsset -> bool) (l : list TimelineAsset) :
  sortedByStartTime l -> sortedByStartTime (filter f l).
Proof.
  unfold sortedByStartTime.
  induction l as [|a l IH]; simpl; intro Hs; [constructor|].
  apply StronglySorted_inv in Hs as [Hl Ha].
  destruct (f a).
  - constructor; [apply IH, Hl|].
    apply Forall_forall. intros c Hc. apply filter_In in Hc as [Hc _].
    rewrite Forall_forall in Ha. apply Ha, Hc.
  - apply IH, Hl.
Qed.

(** ** The drop handler, path by path *)

Ltac drop_unfold :=
  unfold handleDropOnTimeline, tryCatch, dropBody, bind, complete,
    destructure, getLibraryAssets, throw, ret, console_error, logged.

Section DropPaths.

Variables (platform : Platform) (data : string) (dropTime : Q).
Variable s : AppState.

Lemma drop_parse_throws (e : Exn) :
  JSON_parse platform data = Throw e ->
  handleDropOnTimeline platform data dropTime s = (logged s e, Normal tt).
Proof. intro H. drop_unfold. rewrite H. reflexivity. Qed.

Lemma drop_null :
  JSON_parse platform data = Normal JNull ->
  handleDropOnTimeline platform data dropTime s
  = (logged s TypeError, Normal tt).
Proof. intro H. drop_unfold. rewrite H. reflexivity. Qed.

Lemma drop_other_type (parsed : JSValue) :
  JSON_parse platform data = Normal parsed ->
  parsed <> JNull ->
  strictEqString (getProperty parsed "type") "libraryAsset" = false ->
  handleDropOnTimeline platform data dropTime s = (s, Normal tt).
Proof.
  intros H Hn Ht. drop_unfold. rewrite H.
  destruct parsed; try congruence; simpl in *; rewrite ?Ht; reflexivity.
Qed.

Lemma drop_unknown_asset (parsed : JSValue) :
  JSON_parse platform data = Normal parsed ->
  find (fun a =>
          strictEqString (getProperty parsed "assetId") (Media.id a))
    (libraryAssets s) = None ->
  handleDropOnTimeline platform data dropTime s = (s, Normal tt)
  \/ parsed = JNull.
Proof.
  intros H Hf. destruct parsed; auto; left; drop_unfold; rewrite H; simpl;
    try reflexivity.
  simpl in Hf.
  destruct (strictEqString (lookupMember "type" members) "libraryAsset");
    [|reflexivity].
  rewrite Hf. reflexivity.
Qed.

(** The asset is found and its duration is known, or resolves. *)
Lemma drop_places (parsed : JSValue) (assetToAdd : MediaAsset) (d : Q) :
  JSON_parse platform data = Normal parsed ->
  knownLibraryAsset s parsed assetToAdd ->
  Media.duration assetToAdd = Some d ->
  handleDropOnTimeline platform data dropTime s
  = (mkAppState (libraryAssets s)
       (appendSorted (newTimelineAsset platform assetToAdd dropTime d)
          (timelineAssets s))
       (console s),
     Normal tt).
Proof.
  intros H (Hn & Ht & Hf) Hd. drop_unfold. rewrite H.
  destruct parsed; try congruence; simpl in *;
    rewrite ?Ht in *; try discriminate.
  rewrite Hf, Hd. reflexivity.
Qed.

(** The asset is found, its duration is [undefined], and
    [getMediaDuration] rejects. *)
Lemma drop_resolution_rejects (parsed : JSValue) (assetToAdd : MediaAsset) :
  JSON_parse platform data = Normal parsed ->
  knownLibraryAsset s parsed assetToAdd ->
  Media.duration assetToAdd = None ->
  Media.type assetToAdd <> image ->
  mediaElement platform (Media.url assetToAdd) (Media.type assetToAdd)
  = error ->
  handleDropOnTimeline platform data dropTime s
  = (logged s (Error ("Failed to load media metadata for "
                      ++ Media.url assetToAdd)),
     Normal tt).
Proof.
  intros H (Hn & Ht & Hf) Hd Hi He. drop_unfold. rewrite H.
  destruct parsed; try congruence; simpl in *;
    rewrite ?Ht in *; try discriminate.
  rewrite Hf, Hd. unfold getMediaDuration.
  destruct (Media.type assetToAdd); try congruence;
    rewrite He; reflexivity.
Qed.

(** The asset is found, its duration is [undefined], and the promise of
    [getMediaDuration] resolves to [undefined]: the library is rewritten
    before the guard throws. *)
Lemma drop_resolution_undefined (parsed : JSValue)
  (assetToAdd : MediaAsset) :
  JSON_parse platform data = Normal parsed ->
  knownLibraryAsset s parsed assetToAdd ->
  Media.duration assetToAdd = None ->
  Media.type assetToAdd <> image ->
  mediaElement platform (Media.url assetToAdd) (Media.type assetToAdd)
  = loadedmetadata None ->
  handleDropOnTimeline platform data dropTime s
  = (mkAppState
       (map (fun a =>
               if strictEqString (getProperty parsed "assetId")
                    (Media.id a)
               then withDuration a None else a) (libraryAssets s))
       (timelineAssets s)
       (console s ++ [("Failed to handle drop:"%string,
                       Error "Could not determine asset duration.")]),
     Normal tt).
Proof.
  intros H (Hn & Ht & Hf) Hd Hi He. drop_unfold. rewrite H.
  destruct parsed; try congruence; simpl in *;
    rewrite ?Ht in *; try discriminate.
  rewrite Hf, Hd. unfold getMediaDuration.
  destruct (Media.type assetToAdd); try congruence;
    rewrite He; reflexivity.
Qed.

(** Whatever the payload and the platform, the promise is fulfilled and
    the timeline is either untouched or has gained one clip. *)
Lemma drop_outcome :
  snd (handleDropOnTimeline platform data dropTime s) = Normal tt /\
  (timelineAssets (fst (handleDropOnTimeline platform data dropTime s))
   = timelineAssets s
   \/ exists assetToAdd d,
       timelineAssets (fst (handleDropOnTimeline platform data dropTime s))
       = appendSorted (newTimelineAsset platform assetToAdd dropTime d)
           (timelineAssets s)).
Proof.
  drop_unfold. unfold getMediaDuration, setLibraryAssets, setTimelineAssets.
  destruct (JSON_parse platform data) as [parsed|e]; [|simpl; auto].
  destruct parsed; simpl; auto.
  destruct (strictEqString (lookupMember "type" members) "libraryAsset");
    simpl; auto.
  match goal with
  | |- context [find ?f (libraryAssets s)] =>
      destruct (find f (libraryAssets s)) as [a|]; simpl; auto
  end.
  destruct (Media.duration a) as [d|]; simpl; [eauto|].
  destruct (Media.type a); simpl; eauto;
    match goal with
    | |- context [mediaElement platform ?u ?t] =>
        destruct (mediaElement platform u t) as [[d|]|]; simpl; eauto
    end.
Qed.

End DropPaths.

(* ================================================================= *)
(** ** The clips of the scenarios are in order *)

Lemma twoClips_sorted : sortedByStartTime twoClips.
Proof.
  unfold twoClips, sortedByStartTime.
  repeat constructor. unfold startsBefore. simpl. lra.
Defined.

(* ================================================================= *)
(** ** The timeline stays sorted *)

(** C4.  Each mutation of the timeline keeps it sorted by [startTime] in
    ascending order when it was sorted before: a drop (whatever its payload
    and whatever the platform answers; a successful drop appends the new
    clip and sorts), an update (merge of partial fields into the clip named
    by [timelineId], then sort) and a removal (filter by [timelineId]). *)
Theorem mutations_keep_sorted (s : AppState) :
  sortedByStartTime (timelineAssets s) ->
  (forall platform data dropTime,
      sortedByStartTime
        (timelineAssets (fst (handleDropOnTimeline platform data dropTime s))))
  /\ (forall newAsset,
         sortedByStartTime (appendSorted newAsset (timelineAssets s)))
  /\ (forall tid updates,
         sortedByStartTime
           (handleUpdateTimelineAsset tid updates (timelineAssets s)))
  /\ (forall tid,
         sortedByStartTime (handleRemoveFromTimeline tid (timelineAssets s))).
Proof.
  intro Hs. repeat split.
  - intros platform data dropTime.
    destruct (drop_outcome platform data dropTime s) as [_ [E | (a & d & E)]];
      rewrite E; [exact Hs | apply sort_sorted].
  - intro newAsset. apply sort_sorted.
  - intros tid updates. apply sort_sorted.
  - intro tid. apply filter_sorted, Hs.
Qed.

Lemma mutations_keep_sorted_witness :
  sortedByStartTime (timelineAssets (editor [] twoClips))
  /\ sortedByStartTime
       (handleUpdateTimelineAsset "t1"
          (mkPartial None None None None None None None None None None
             (Some 8) None None)
          twoClips)
  /\ sortedByStartTime (handleRemoveFromTimeline "t1" twoClips).
Proof.
  split; [exact twoClips_sorted|].
  destruct (mutations_keep_sorted (editor [] twoClips) twoClips_sorted)
    as (_ & _ & Hupdate & Hremove).
  split; [apply Hupdate | apply Hremove].
Defined.

(* ================================================================= *)
(** ** [totalDuration] *)

Lemma reduce_max_ge_init (l : list TimelineAsset) (init : Q) :
  init <= fold_left (fun max asset => Qmax max (clipEnd asset)) l init.
Proof.
  revert init. induction l as [|a l IH]; simpl; intro init.
  - apply Qle_refl.
  - eapply Qle_trans; [|apply IH]. apply Q.le_max_l.
Qed.

Lemma reduce_max_ge_clip (l : list TimelineAsset) (init : Q) c :
  In c l ->
  clipEnd c <= fold_left (fun max asset => Qmax max (clipEnd asset)) l init.
Proof.
  revert init. induction l as [|a l IH]; simpl; intros init H;
    [contradiction|destruct H as [E|H]].
  - subst a. eapply Qle_trans; [|apply reduce_max_ge_init]. apply Q.le_max_r.
  - apply IH, H.
Qed.

Lemma reduce_max_attained (l : list TimelineAsset) (init : Q) :
  fold_left (fun max asset => Qmax max (clipEnd asset)) l init == init
  \/ exists c, In c l /\
       fold_left (fun max asset => Qmax max (clipEnd asset)) l init
       == clipEnd c.
Proof.
  revert init. induction l as [|a l IH]; simpl; intro init.
  - left. reflexivity.
  - destruct (IH (Qmax init (clipEnd a))) as [E | (c & Hc & E)].
    + destruct (Q.max_spec init (clipEnd a)) as [[_ M] | [_ M]].
      * right. exists a. split; [now left|]. rewrite E. exact M.
      * left. rewrite E. exact M.
    + right. exists c. split; [now right | exact E].
Qed.

Lemma totalDuration_floor (clips : list TimelineAsset) :
  15 <= totalDuration clips.
Proof. unfold totalDuration. apply Q.le_max_l. Qed.

(** C5.  [totalDuration] is the larger of 15 and the latest end
    [startTime + effectiveDuration] of a clip: it is at least 15, at least
    the end of every clip, and it is 15 or the end of some clip; on the
    empty timeline it is 15. *)
Theorem totalDuration_is_max (clips : list TimelineAsset) :
  15 <= totalDuration clips
  /\ (forall c, In c clips ->
        startTime c + effectiveDuration c <= totalDuration clips)
  /\ (totalDuration clips == 15
      \/ exists c, In c clips /\
           totalDuration clips == startTime c + effectiveDuration c)
  /\ totalDuration [] = 15.
Proof.
  unfold totalDuration. fold clipEnd.
  change (fun max asset => Qmax max (startTime asset + effectiveDuration asset))
    with (fun max asset => Qmax max (clipEnd asset)).
  repeat split.
  - apply (totalDuration_floor clips).
  - intros c Hc. eapply Qle_trans; [|apply Q.le_max_r].
    apply (reduce_max_ge_clip clips 0 c Hc).
  - destruct (Q.max_spec 15
                (fold_left (fun max asset => Qmax max (clipEnd asset)) clips 0))
      as [[_ M] | [_ M]]; [|left; exact M].
    destruct (reduce_max_attained clips 0) as [E | (c & Hc & E)].
    + left. rewrite M, E. rewrite E in M.
      destruct (Q.max_spec 15 0) as [[L _] | [_ M0]]; [lra|].
      rewrite <- M, M0. reflexivity.
    + right. exists c. split; [exact Hc|]. rewrite M. exact E.
Qed.

Lemma totalDuration_is_max_witness :
  startTime (clip "t2" 5 5) + effectiveDuration (clip "t2" 5 5)
  <= totalDuration twoClips.
Proof.
  apply (proj1 (proj2 (totalDuration_is_max twoClips))).
  right. left. reflexivity.
Defined.

(* ================================================================= *)
(** ** The frame of an update *)

Lemma mergeInto_other tid updates c :
  timelineId c <> tid -> mergeInto tid updates c = c.
Proof.
  intro H. unfold mergeInto.
  destruct (String.eqb_spec (timelineId c) tid); [contradiction|reflexivity].
Qed.


Lemma map_mergeInto_split tid updates (l : list TimelineAsset) :
  Permutation (map (mergeInto tid updates) l)
    (map (fun c => spread c updates)
       (filter (fun c => String.eqb (timelineId c) tid) l)
     ++ handleRemoveFromTimeline tid l).
Proof.
  unfold handleRemoveFromTimeline.
  induction l as [|a l IH]; simpl; [constructor|].
  unfold mergeInto at 1.
  destruct (String.eqb (timelineId a) tid); simpl.
  - apply perm_skip, IH.
  - eapply perm_trans; [apply perm_skip, IH|].
    apply Permutation_middle.
Qed.

Lemma map_mergeInto_absent tid updates (l : list TimelineAsset) :
  (forall c, In c l -> timelineId c <> tid) ->
  map (mergeInto tid updates) l = l.
Proof.
  intro H. induction l as [|a l IH]; simpl; [reflexivity|].
  rewrite mergeInto_other by (apply H; now left).
  rewrite IH; [reflexivity|]. intros c Hc. apply H. now right.
Qed.

(** C10.  An update leaves every clip with another [timelineId] as it is:
    such a clip is still in the collection with all its fields, the
    collection after the update is, up to order, the merged clips of that
    [timelineId] together with the untouched others, and when no clip has
    the [timelineId] a sorted collection comes back identical, element by
    element. *)
Theorem update_frame (tid : string) (updates : PartialTimelineAsset)
  (prev : list TimelineAsset) :
  (forall c, In c prev -> timelineId c <> tid ->
     In c (handleUpdateTimelineAsset tid updates prev))
  /\ Permutation (handleUpdateTimelineAsset tid updates prev)
       (map (fun c => spread c updates)
          (filter (fun c => String.eqb (timelineId c) tid) prev)
        ++ filter (fun c => negb (String.eqb (timelineId c) tid)) prev)
  /\ ((forall c, In c prev -> timelineId c <> tid) ->
      sortedByStartTime prev ->
      handleUpdateTimelineAsset tid updates prev = prev).
Proof.
  unfold handleUpdateTimelineAsset. repeat split.
  - intros c Hc Hne.
    apply (Permutation_in c (Permutation_sym (sort_perm _))).
    rewrite <- (mergeInto_other tid updates c Hne).
    apply in_map, Hc.
  - eapply perm_trans; [apply sort_perm|].
    apply map_mergeInto_split.
  - intros Habsent Hsorted.
    rewrite map_mergeInto_absent by exact Habsent.
    apply sort_sorted_id, Hsorted.
Qed.

Lemma update_frame_witness :
  In (clip "t2" 5 5)
    (handleUpdateTimelineAsset "t1"
       (mkPartial None None None None None None None None None None
          (Some 8) None None)
       twoClips)
  /\ handleUpdateTimelineAsset "t9"
       (mkPartial None None None None None None None None None None
          (Some 8) None None)
       twoClips
     = twoClips.
Proof.
  split.
  - apply (proj1 (update_frame "t1" _ twoClips)).
    + right. left. reflexivity.
    + discriminate.
  - apply (proj2 (proj2 (update_frame "t9" _ twoClips))).
    + intros c [E | [E | []]]; subst c; discriminate.
    + exact twoClips_sorted.
Defined.

(* ================================================================= *)
(** ** The active clip and its in-source offset *)

Lemma isPlayingAt_iff (t : Q) (c : TimelineAsset) :
  isPlayingAt t c = true
  <-> startTime c <= t < startTime c + effectiveDuration c.
Proof.
  unfold isPlayingAt. rewrite andb_true_iff, negb_true_iff.
  rewrite Qle_bool_true, Qle_bool_false. reflexivity.
Qed.




(* ================================================================= *)
(** ** Trimming the left edge *)




(* ================================================================= *)
(** ** The clock at the end of the timeline *)

Lemma frame_positive : 0 < 1 / 60.
Proof. reflexivity. Qed.

(** Arithmetic on the frame length, with [1 / 60] kept as one number. *)
Ltac frame_lra :=
  pose proof frame_positive;
  pose proof (Qeq_refl (1 / 60));
  generalize dependent (1 / 60); intros; lra.

(** C2, as the code has it.  The frame callback tests the playhead it
    finds, not the playhead it would produce: a frame that finds the
    playhead at or past [totalDuration] stops the transport and puts the
    playhead at 0, and a frame that finds it before [totalDuration] advances
    it by 1/60 and leaves the play state alone.  From [totalDuration - 1/60]
    the first frame reaches [totalDuration], still running, and the second
    one stops at 0. *)
Theorem tick_boundary (D : Q) (s : Transport) :
  (D <= currentTime s -> tick D s = mkTransport false 0)
  /\ (currentTime s < D ->
      tick D s = mkTransport (isPlaying s) (currentTime s + 1 / 60))
  /\ (isPlaying (tick D (mkTransport true (D - 1 / 60))) = true
      /\ currentTime (tick D (mkTransport true (D - 1 / 60))) == D
      /\ tick D (tick D (mkTransport true (D - 1 / 60)))
         = mkTransport false 0).
Proof.
  assert (Hstop : forall s', D <= currentTime s' ->
                             tick D s' = mkTransport false 0).
  { intros s' H. unfold tick. apply Qle_bool_true in H. rewrite H.
    reflexivity. }
  assert (Hrun : forall s', currentTime s' < D ->
                   tick D s'
                   = mkTransport (isPlaying s') (currentTime s' + 1 / 60)).
  { intros s' H. unfold tick. apply Qle_bool_false in H. rewrite H.
    reflexivity. }
  split; [apply Hstop | split; [apply Hrun|]].
  rewrite (Hrun (mkTransport true (D - 1 / 60))) by (simpl; frame_lra).
  simpl. repeat split.
  - frame_lra.
  - apply Hstop. simpl. frame_lra.
Qed.

Lemma tick_boundary_witness :
  tick 15 (mkTransport true 15) = mkTransport false 0
  /\ tick 15 (mkTransport true 3) = mkTransport true (3 + 1 / 60).
Proof.
  split.
  - apply (proj1 (tick_boundary 15 (mkTransport true 15))).
    simpl. apply Qle_refl.
  - apply (proj1 (proj2 (tick_boundary 15 (mkTransport true 3)))).
    reflexivity.
Defined.

(** C2 as stated fails: with [totalDuration = 15] (the empty timeline) and
    the transport running at [15 - 1/60], one frame leaves the transport
    running, with the playhead at 15 and not at 0. *)
Lemma tick_before_end_keeps_running :
  totalDuration [] = 15
  /\ transportStep [] (mkTransport true (15 - 1 / 60)) Frame
     = tick 15 (mkTransport true (15 - 1 / 60))
  /\ isPlaying (tick 15 (mkTransport true (15 - 1 / 60))) = true
  /\ currentTime (tick 15 (mkTransport true (15 - 1 / 60))) == 15
  /\ ~ currentTime (tick 15 (mkTransport true (15 - 1 / 60))) == 0.
Proof.
  repeat split; vm_compute; discriminate.
Qed.

(* ================================================================= *)
(** ** The range of the playhead *)

Lemma transportStep_bounds (clips : list TimelineAsset) (s : Transport)
  (e : TransportEvent) :
  0 <= currentTime s < totalDuration clips + 1 / 60 ->
  0 <= currentTime (transportStep clips s e) < totalDuration clips + 1 / 60.
Proof.
  intros [H0 H1].
  pose proof (totalDuration_floor clips) as HD.
  destruct e as [| | |zoom x scrollLeft]; simpl.
  - destruct (isPlaying s); [|split; assumption].
    unfold tick.
    destruct (Qle_bool (totalDuration clips) (currentTime s)) eqn:E; simpl.
    + split; frame_lra.
    + apply Qle_bool_false in E. split; frame_lra.
  - split; assumption.
  - split; frame_lra.
  - split.
    + apply Q.min_glb; [apply Q.le_max_l | lra].
    + eapply Qle_lt_trans; [apply Q.le_min_r | frame_lra].
Qed.

(** C6, as the code has it.  After any sequence of frames, presses of play
    and of seek-to-0, and playhead drags, on a fixed timeline, the playhead
    is at least 0 and less than [totalDuration + 1/60]: a frame that finds
    the playhead just before [totalDuration] carries it past the end, by
    less than one frame. *)
Theorem playhead_bounds (clips : list TimelineAsset)
  (events : list TransportEvent) :
  0 <= currentTime (transportRun clips events)
  /\ currentTime (transportRun clips events) < totalDuration clips + 1 / 60.
Proof.
  unfold transportRun.
  assert (Hinit : 0 <= currentTime initialTransport
                  < totalDuration clips + 1 / 60).
  { pose proof (totalDuration_floor clips). simpl. split; frame_lra. }
  revert Hinit. generalize initialTransport.
  induction events as [|e events IH]; simpl; intros s Hs.
  - exact Hs.
  - apply IH, transportStep_bounds, Hs.
Qed.

(** C6 as stated fails: on the empty timeline ([totalDuration = 15]), press
    play, drag the playhead to 14.99 (749.5 pixels at zoom 1) and let one
    frame pass: the playhead is past 15. *)
Lemma playhead_passes_end :
  totalDuration [] = 15
  /\ ~ (currentTime
          (transportRun [] [TogglePlay; PlayheadDrag 1 (1499 # 2) 0; Frame])
        <= totalDuration []).
Proof.
  split; [reflexivity|]. vm_compute. intro H. apply H. reflexivity.
Qed.

(* ================================================================= *)
(** ** Drops that place nothing *)

(** C7.  A drop whose payload does not parse as JSON, or does not name a
    known library asset, leaves the timeline (and the library) as they
    were, and the handler completes normally: nothing is thrown to its
    caller.  This holds whatever [JSON.parse] does; for the payload
    [not json] the parse fails, no clip is added and the error is only
    logged. *)
Theorem malformed_drop_ignored (platform : Platform) (s : AppState)
  (data : string) (dropTime : Q) :
  malformedPayload platform s data ->
  timelineAssets (fst (handleDropOnTimeline platform data dropTime s))
  = timelineAssets s
  /\ libraryAssets (fst (handleDropOnTimeline platform data dropTime s))
     = libraryAssets s
  /\ snd (handleDropOnTimeline platform data dropTime s) = Normal tt
  /\ (forall loads uuid,
        JSON.parse "not json" = Throw SyntaxError
        /\ handleDropOnTimeline (browser loads uuid) "not json" dropTime s
           = (logged s SyntaxError, Normal tt)).
Proof.
  intro Hbad.
  assert (Hscenario : forall loads uuid,
             JSON.parse "not json" = Throw SyntaxError
             /\ handleDropOnTimeline (browser loads uuid) "not json"
                  dropTime s
                = (logged s SyntaxError, Normal tt)).
  { intros loads uuid. split; [reflexivity|].
    apply drop_parse_throws. reflexivity. }
  destruct Hbad as [[e He] | (parsed & Hp & Hunknown)].
  - rewrite (drop_parse_throws platform data dropTime s e He).
    repeat split; auto; apply Hscenario.
  - destruct parsed as [| b | q | str | elements | members].
    1: { rewrite (drop_null platform data dropTime s Hp).
         repeat split; auto; apply Hscenario. }
    all: match type of Hp with
         | _ = Normal ?v =>
             assert (Hn : v <> JNull) by discriminate;
             destruct (strictEqString (getProperty v "type") "libraryAsset")
               eqn:Ht;
             [ destruct (find (fun a => strictEqString
                                          (getProperty v "assetId")
                                          (Media.id a)) (libraryAssets s))
                 as [a|] eqn:Hf;
               [ exfalso; apply Hunknown; exists a; repeat split; assumption
               | destruct (drop_unknown_asset platform data dropTime s v
                             Hp Hf) as [E|E]; [rewrite E | congruence] ]
             | rewrite (drop_other_type platform data dropTime s v Hp Hn Ht) ]
         end;
      repeat split; auto; apply Hscenario.
Qed.

Lemma malformed_drop_ignored_witness :
  timelineAssets
    (fst (handleDropOnTimeline (browser (fun _ => Some 10) "u1") "not json" 4
            (editor [libraryVideo "a1" (Some 10)] twoClips)))
  = twoClips.
Proof.
  apply (malformed_drop_ignored (browser (fun _ => Some 10) "u1")
           (editor [libraryVideo "a1" (Some 10)] twoClips) "not json" 4).
  left. exists SyntaxError. reflexivity.
Defined.

(* ================================================================= *)
(** ** A drop whose duration cannot be resolved *)

(** C8, as the code has it.  When the duration of the dropped library asset
    cannot be resolved, no clip is created and the timeline is as it was;
    the failure is an [Error] that the handler itself catches and reports
    with [console.error], and the handler completes normally: its caller
    receives no error. *)
Theorem unresolved_duration_places_nothing (platform : Platform)
  (s : AppState) (data : string) (dropTime : Q) (parsed : JSValue)
  (assetToAdd : MediaAsset) :
  JSON_parse platform data = Normal parsed ->
  knownLibraryAsset s parsed assetToAdd ->
  resolutionFails platform assetToAdd ->
  timelineAssets (fst (handleDropOnTimeline platform data dropTime s))
  = timelineAssets s
  /\ snd (handleDropOnTimeline platform data dropTime s) = Normal tt
  /\ exists message,
       console (fst (handleDropOnTimeline platform data dropTime s))
       = console s ++ [("Failed to handle drop:"%string, Error message)].
Proof.
  intros Hp Hknown (Hd & Hi & [He | He]).
  - rewrite (drop_resolution_rejects platform data dropTime s parsed
               assetToAdd Hp Hknown Hd Hi He).
    repeat split. eexists. reflexivity.
  - rewrite (drop_resolution_undefined platform data dropTime s parsed
               assetToAdd Hp Hknown Hd Hi He).
    repeat split. eexists. reflexivity.
Qed.

Lemma unresolved_duration_places_nothing_witness :
  timelineAssets
    (fst (handleDropOnTimeline offline (libraryDragStart pendingVideo) 4
            (editor [pendingVideo] twoClips)))
  = twoClips
  /\ snd (handleDropOnTimeline offline (libraryDragStart pendingVideo) 4
            (editor [pendingVideo] twoClips))
     = Normal tt.
Proof.
  destruct (unresolved_duration_places_nothing offline
              (editor [pendingVideo] twoClips)
              (libraryDragStart pendingVideo) 4
              (JObject [("type"%string, JString "libraryAsset");
                        ("assetId"%string, JString "a1")])
              pendingVideo)
    as (Ht & Hc & _).
  - reflexivity.
  - split; [discriminate | split; reflexivity].
  - split; [reflexivity | split; [discriminate | left; reflexivity]].
  - split; assumption.
Defined.

(** C8 as stated fails: the video of the library has no duration, its
    metadata fail to load, and the handler still completes normally; no
    error reaches the caller, the rejection is only in the console. *)
Lemma unresolved_duration_not_surfaced :
  resolutionFails offline pendingVideo
  /\ handleDropOnTimeline offline (libraryDragStart pendingVideo) 4
       (editor [pendingVideo] twoClips)
     = (mkAppState [pendingVideo] twoClips
          [("Failed to handle drop:"%string,
            Error "Failed to load media metadata for blob:a1")],
        Normal tt)
  /\ ~ (exists e,
          snd (handleDropOnTimeline offline (libraryDragStart pendingVideo) 4
                 (editor [pendingVideo] twoClips))
          = Throw e).
Proof.
  split; [|split].
  - split; [reflexivity | split; [discriminate | left; reflexivity]].
  - reflexivity.
  - intros [e He]. discriminate He.
Qed.

(* ================================================================= *)
(** ** Dropping a clip of the timeline *)

(** A payload tagged ['timelineAsset'] reaches no branch of the handler,
    whatever the platform and the state. *)
Lemma drop_timelineAsset_payload (platform : Platform) (data : string)
  (dropTime : Q) (s : AppState) (parsed : JSValue) :
  JSON_parse platform data = Normal parsed ->
  getProperty parsed "type" = Some (JString "timelineAsset") ->
  handleDropOnTimeline platform data dropTime s = (s, Normal tt).
Proof.
  intros Hp Ht.
  apply (drop_other_type platform data dropTime s parsed Hp).
  - intro E. subst parsed. discriminate Ht.
  - rewrite Ht. reflexivity.
Qed.

(** C9, on the code.  The payload [handleDragStart] writes for a clip is
    tagged ['timelineAsset']; [handleDropOnTimeline] has a branch for
    ['libraryAsset'] only.  Dropping the first of the two clips at any time
    leaves the state as it was: the clip keeps its [startTime] of 0. *)
Theorem timeline_payload_dropped_without_effect (dropTime : Q) :
  JSON.parse (handleDragStart (clip "t1" 0 5))
  = Normal (JObject [("type"%string, JString "timelineAsset");
                     ("assetId"%string, JString "asset-t1");
                     ("timelineId"%string, JString "t1")])
  /\ handleDropOnTimeline offline (handleDragStart (clip "t1" 0 5)) dropTime
       (editor [pendingVideo] twoClips)
     = (editor [pendingVideo] twoClips, Normal tt)
  /\ map startTime
       (timelineAssets
          (fst (handleDropOnTimeline offline
                  (handleDragStart (clip "t1" 0 5)) dropTime
                  (editor [pendingVideo] twoClips))))
     = [0; 5].
Proof.
  split; [reflexivity | split; reflexivity].
Qed.

(* ================================================================= *)
(** * Further properties of the timeline model *)

(** ** Removal *)

(** X1.  [handleRemoveFromTimeline] removes every clip with the given
    [timelineId] and nothing else: what is left are exactly the clips of
    the collection with another [timelineId]; when no clip has the
    [timelineId] the collection comes back identical; removing twice is
    removing once; and the collection never grows. *)
Theorem remove_frame (tid : string) (prev : list TimelineAsset) :
  (forall c, In c (handleRemoveFromTimeline tid prev)
             <-> In c prev /\ timelineId c <> tid)
  /\ ((forall c, In c prev -> timelineId c <> tid) ->
      handleRemoveFromTimeline tid prev = prev)
  /\ handleRemoveFromTimeline tid (handleRemoveFromTimeline tid prev)
     = handleRemoveFromTimeline tid prev
  /\ (List.length (handleRemoveFromTimeline tid prev) <= List.length prev)%nat.
Proof.
  unfold handleRemoveFromTimeline.
  assert (Hkeep : forall c, negb (String.eqb (timelineId c) tid) = true
                            <-> timelineId c <> tid).
  { intro c. rewrite negb_true_iff.
    destruct (String.eqb_spec (timelineId c) tid); split; congruence. }
  split; [|split; [|split]].
  - intro c. rewrite filter_In, Hkeep. reflexivity.
  - intro Habsent. induction prev as [|a l IH]; simpl; [reflexivity|].
    rewrite (proj2 (Hkeep a)) by (apply Habsent; now left).
    rewrite IH; [reflexivity|]. intros c Hc. apply Habsent. now right.
  - induction prev as [|a l IH]; simpl; [reflexivity|].
    destruct (String.eqb (timelineId a) tid) eqn:E; simpl; [exact IH|].
    rewrite E. simpl. rewrite IH. reflexivity.
  - apply filter_length_le.
Qed.

Lemma remove_frame_witness : handleRemoveFromTimeline "t9" twoClips = twoClips.
Proof.
  apply (proj1 (proj2 (remove_frame "t9" twoClips))).
  intros c [E | [E | []]]; subst c; discriminate.
Defined.

(** ** [totalDuration] and the operations *)

Lemma reduce_max_le (l : list TimelineAsset) (init b : Q) :
  init <= b -> (forall c, In c l -> clipEnd c <= b) ->
  fold_left (fun max asset => Qmax max (clipEnd asset)) l init <= b.
Proof.
  revert init. induction l as [|a l IH]; simpl; intros init Hi Hl.
  - exact Hi.
  - apply IH.
    + apply Q.max_lub; [exact Hi | apply Hl; now left].
    + intros c Hc. apply Hl. now right.
Qed.

(** [totalDuration] is the least bound of 15 and of the ends of the
    clips. *)
Lemma totalDuration_le_iff (l : list TimelineAsset) (b : Q) :
  totalDuration l <= b
  <-> 15 <= b /\ forall c, In c l -> clipEnd c <= b.
Proof.
  unfold totalDuration.
  change (fun max asset => Qmax max (startTime asset + effectiveDuration asset))
    with (fun max asset => Qmax max (clipEnd asset)).
  split.
  - intro H. split.
    + eapply Qle_trans; [apply Q.le_max_l | exact H].
    + intros c Hc. eapply Qle_trans; [|exact H].
      eapply Qle_trans; [|apply Q.le_max_r].
      apply reduce_max_ge_clip, Hc.
  - intros [H15 Hl]. apply Q.max_lub; [exact H15|].
    apply reduce_max_le; [lra | exact Hl].
Qed.

Lemma totalDuration_incl (l l' : list TimelineAsset) :
  incl l l' -> totalDuration l <= totalDuration l'.
Proof.
  intro H. apply totalDuration_le_iff.
  destruct (proj1 (totalDuration_le_iff l' (totalDuration l'))
              (Qle_refl _)) as [H15 Hl'].
  split; [exact H15|]. intros c Hc. apply Hl', H, Hc.
Qed.

(** X2.  [totalDuration] depends on the clips only, not on their order:
    it is the same before and after the sort.  A removal never makes it
    larger, and after a clip is appended it is the larger of what it was
    and of the end of the new clip. *)
Theorem totalDuration_of_operations (prev : list TimelineAsset) :
  (forall l, Permutation prev l -> totalDuration l == totalDuration prev)
  /\ totalDuration (sort prev) == totalDuration prev
  /\ (forall tid,
        totalDuration (handleRemoveFromTimeline tid prev)
        <= totalDuration prev)
  /\ (forall newAsset,
        totalDuration (appendSorted newAsset prev)
        == Qmax (totalDuration prev)
             (startTime newAsset + effectiveDuration newAsset)).
Proof.
  assert (Hperm : forall l l' : list TimelineAsset,
             Permutation l l' -> totalDuration l' == totalDuration l).
  { intros l l' H. apply Qle_antisym; apply totalDuration_incl;
      intros c Hc.
    - apply (Permutation_in c (Permutation_sym H) Hc).
    - apply (Permutation_in c H Hc). }
  repeat split.
  - apply Hperm.
  - apply Hperm, Permutation_sym, sort_perm.
  - intro tid. apply totalDuration_incl. intros c Hc.
    unfold handleRemoveFromTimeline in Hc. apply filter_In in Hc. tauto.
  - intro newAsset. unfold appendSorted.
    rewrite (Hperm (prev ++ [newAsset]) (sort (prev ++ [newAsset])))
      by (apply Permutation_sym, sort_perm).
    fold (clipEnd newAsset).
    apply Qle_antisym.
    + apply totalDuration_le_iff. split.
      * eapply Qle_trans; [apply totalDuration_floor | apply Q.le_max_l].
      * intros c Hc. apply in_app_or in Hc as [Hc | [E | []]].
        -- eapply Qle_trans; [|apply Q.le_max_l].
           apply (proj1 (totalDuration_le_iff prev _) (Qle_refl _)), Hc.
        -- subst c. apply Q.le_max_r.
    + apply Q.max_lub.
      * apply totalDuration_incl. intros c Hc. apply in_or_app. now left.
      * apply (proj1 (totalDuration_le_iff (prev ++ [newAsset]) _)
                 (Qle_refl _)).
        apply in_or_app. right. now left.
Qed.

Lemma totalDuration_of_operations_witness :
  totalDuration [clip "t2" 5 5; clip "t1" 0 5] == totalDuration twoClips.
Proof.
  apply (proj1 (totalDuration_of_operations twoClips)).
  apply perm_swap.
Defined.

(** ** Where a new clip goes *)

Lemma insert_first (a : TimelineAsset) (l : list TimelineAsset) :
  Forall (startsBefore a) l -> insert a l = a :: l.
Proof.
  intro H. destruct l as [|b l]; [reflexivity|]. simpl.
  apply Forall_inv in H. apply compareFn_le in H. rewrite H. reflexivity.
Qed.

Lemma sort_snoc (l : list TimelineAsset) (x : TimelineAsset) :
  sort (l ++ [x]) = fold_right insert [x] l.
Proof. unfold sort. rewrite fold_right_app. reflexivity. Qed.

Lemma later_clips (x : TimelineAsset) (l : list TimelineAsset) :
  Forall (fun c => startTime x < startTime c) l ->
  filter (notAfter x) l = [] /\ filter (fun c => negb (notAfter x c)) l = l.
Proof.
  induction 1 as [|c l Hc _ [IH1 IH2]]; simpl; [split; reflexivity|].
  assert (E : notAfter x c = false) by (apply Qle_bool_false; exact Hc).
  rewrite E. simpl. rewrite IH1, IH2. split; reflexivity.
Qed.

(** X3.  A clip appended to a sorted timeline lands after every clip that
    starts no later than it and before every clip that starts later: a
    clip dropped at the start time of another one comes after it, so the
    clip that was there first stays the first match of the resolver. *)
Theorem place_position (newAsset : TimelineAsset)
  (prev : list TimelineAsset) :
  sortedByStartTime prev ->
  appendSorted newAsset prev
  = filter (fun c => Qle_bool (startTime c) (startTime newAsset)) prev
    ++ newAsset
       :: filter (fun c => negb (Qle_bool (startTime c) (startTime newAsset)))
            prev.
Proof.
  unfold appendSorted, sortedByStartTime. rewrite sort_snoc.
  change (fun c => Qle_bool (startTime c) (startTime newAsset))
    with (notAfter newAsset).
  change (fun c => negb (Qle_bool (startTime c) (startTime newAsset)))
    with (fun c => negb (notAfter newAsset c)).
  induction prev as [|a l IH]; intro Hs; [reflexivity|].
  apply StronglySorted_inv in Hs as [Hl Ha].
  simpl. rewrite (IH Hl).
  destruct (notAfter newAsset a) eqn:E; simpl.
  - apply insert_first. apply Forall_app. split.
    + apply Forall_forall. intros c Hc. apply filter_In in Hc as [Hc _].
      rewrite Forall_forall in Ha. apply Ha, Hc.
    + constructor.
      * unfold notAfter in E. apply Qle_bool_true in E. exact E.
      * apply Forall_forall. intros c Hc. apply filter_In in Hc as [Hc _].
        rewrite Forall_forall in Ha. apply Ha, Hc.
  - unfold notAfter in E. apply Qle_bool_false in E.
    assert (Hlater : Forall (fun c => startTime newAsset < startTime c) l).
    { eapply Forall_impl; [|exact Ha]. unfold startsBefore. intros c Hc.
      lra. }
    destruct (later_clips newAsset l Hlater) as [E1 E2].
    rewrite E1, E2. simpl.
    assert (Hcmp : Qle_bool (compareFn a newAsset) 0 = false).
    { apply Qle_bool_false. unfold compareFn. lra. }
    rewrite Hcmp. rewrite (insert_first a l Ha). reflexivity.
Qed.

Lemma place_position_witness :
  appendSorted (clip "t3" 0 2) twoClips
  = [clip "t1" 0 5; clip "t3" 0 2; clip "t2" 5 5].
Proof.
  exact (place_position (clip "t3" 0 2) twoClips twoClips_sorted).
Defined.

(** ** Updates that do not move a clip *)

Lemma map_sorted (f : TimelineAsset -> TimelineAsset)
  (l : list TimelineAsset) :
  (forall c, startTime (f c) = startTime c) ->
  sortedByStartTime l -> sortedByStartTime (map f l).
Proof.
  intros Hf. unfold sortedByStartTime.
  induction l as [|a l IH]; simpl; intro Hs; [constructor|].
  apply StronglySorted_inv in Hs as [Hl Ha].
  constructor; [apply IH, Hl|].
  apply Forall_forall. intros c Hc. apply in_map_iff in Hc as (c0 & <- & Hc0).
  rewrite Forall_forall in Ha. unfold startsBefore. rewrite !Hf.
  apply Ha, Hc0.
Qed.

(** X4.  An update that carries no [startTime] (a trim of the right edge,
    for one) never reorders a sorted timeline: the clip is replaced where
    it stands and every other clip keeps its place. *)
Theorem update_in_place (tid : string) (updates : PartialTimelineAsset)
  (prev : list TimelineAsset) :
  p_startTime updates = None ->
  sortedByStartTime prev ->
  handleUpdateTimelineAsset tid updates prev
  = map (fun asset =>
           if String.eqb (timelineId asset) tid
           then spread asset updates else asset) prev
  /\ List.length (handleUpdateTimelineAsset tid updates prev)
     = List.length prev
  /\ map startTime (handleUpdateTimelineAsset tid updates prev)
     = map startTime prev.
Proof.
  intros Hu Hs.
  assert (Hstart : forall c, startTime (mergeInto tid updates c)
                             = startTime c).
  { intro c. unfold mergeInto.
    destruct (String.eqb (timelineId c) tid); [|reflexivity].
    simpl. rewrite Hu. reflexivity. }
  assert (E : handleUpdateTimelineAsset tid updates prev
              = map (mergeInto tid updates) prev).
  { unfold handleUpdateTimelineAsset.
    apply sort_sorted_id, map_sorted; assumption. }
  rewrite E. repeat split.
  - apply length_map.
  - rewrite map_map. apply map_ext. exact Hstart.
Qed.

Lemma update_in_place_witness :
  map startTime
    (handleUpdateTimelineAsset "t1"
       (mkPartial None None None None None None None None None None
          None None (Some 1))
       twoClips)
  = map startTime twoClips.
Proof.
  apply (update_in_place "t1"
           (mkPartial None None None None None None None None None None
              None None (Some 1))
           twoClips eq_refl twoClips_sorted).
Defined.

(* ================================================================= *)
(** * Further properties of the drop handler *)

(** The asset is found, its duration is [undefined], and the promise of
    [getMediaDuration] resolves to a number. *)
Lemma drop_resolves (platform : Platform) (data : string) (dropTime : Q)
  (s : AppState) (parsed : JSValue) (assetToAdd : MediaAsset) (d : Q) :
  JSON_parse platform data = Normal parsed ->
  knownLibraryAsset s parsed assetToAdd ->
  Media.duration assetToAdd = None ->
  getMediaDuration platform (Media.url assetToAdd) (Media.type assetToAdd) s
  = (s, Normal (Some d)) ->
  handleDropOnTimeline platform data dropTime s
  = (mkAppState
       (map (fun a =>
               if strictEqString (getProperty parsed "assetId") (Media.id a)
               then withDuration a (Some d) else a) (libraryAssets s))
       (appendSorted (newTimelineAsset platform assetToAdd dropTime d)
          (timelineAssets s))
       (console s),
     Normal tt).
Proof.
  intros H (Hn & Ht & Hf) Hd Hg. drop_unfold. rewrite H.
  destruct parsed; try congruence; simpl in *;
    rewrite ?Ht in *; try discriminate.
  rewrite Hf, Hd, Hg. reflexivity.
Qed.

Lemma getMediaDuration_cases (platform : Platform) (url : string)
  (type : MediaType) (s : AppState) (d : Q) :
  type = image /\ d = 5
  \/ type <> image /\ mediaElement platform url type = loadedmetadata (Some d) ->
  getMediaDuration platform url type s = (s, Normal (Some d)).
Proof.
  unfold getMediaDuration, ret.
  intros [[-> ->] | [Hi He]]; [reflexivity|].
  destruct type; try congruence; rewrite He; reflexivity.
Qed.

Lemma find_map_keeps (p : MediaAsset -> bool) (g : MediaAsset -> MediaAsset)
  (l : list MediaAsset) :
  (forall a, p (g a) = p a) ->
  find p (map g l) = option_map g (find p l).
Proof.
  intro Hp. induction l as [|a l IH]; simpl; [reflexivity|].
  rewrite Hp. destruct (p a); [reflexivity | exact IH].
Qed.

(** X5.  A drop that names a library asset whose duration is known adds
    exactly one clip and touches nothing else: the clip has the dropped
    asset's [id], [type] and [url], the identifier [crypto.randomUUID()]
    returned, [startTime = dropTime], the known duration and no trim; the
    clips that were on the timeline are all still there; the library and
    the console are as they were, and the handler completes normally. *)
Theorem drop_adds_one_clip (platform : Platform) (s : AppState)
  (data : string) (dropTime : Q) (parsed : JSValue)
  (assetToAdd : MediaAsset) (d : Q) :
  JSON_parse platform data = Normal parsed ->
  knownLibraryAsset s parsed assetToAdd ->
  Media.duration assetToAdd = Some d ->
  exists c,
    Permutation
      (timelineAssets (fst (handleDropOnTimeline platform data dropTime s)))
      (c :: timelineAssets s)
    /\ (id c = Media.id assetToAdd /\ type c = Media.type assetToAdd
        /\ url c = Media.url assetToAdd
        /\ timelineId c = randomUUID platform
        /\ startTime c = dropTime /\ duration c = Some d
        /\ trimStart c = 0 /\ trimEnd c = 0)
    /\ libraryAssets (fst (handleDropOnTimeline platform data dropTime s))
       = libraryAssets s
    /\ console (fst (handleDropOnTimeline platform data dropTime s))
       = console s
    /\ snd (handleDropOnTimeline platform data dropTime s) = Normal tt.
Proof.
  intros Hp Hk Hd.
  rewrite (drop_places platform data dropTime s parsed assetToAdd d Hp Hk Hd).
  exists (newTimelineAsset platform assetToAdd dropTime d). simpl.
  split; [|repeat split].
  unfold appendSorted.
  eapply perm_trans; [apply sort_perm|].
  apply Permutation_sym, Permutation_cons_append.
Qed.

(** A library of one video of ten seconds, on which [twoClips] stand. *)
Lemma drop_adds_one_clip_witness :
  exists c,
    Permutation
      (timelineAssets
         (fst (handleDropOnTimeline offline
                 (libraryDragStart (libraryVideo "a1" (Some 10))) 4
                 (editor [libraryVideo "a1" (Some 10)] twoClips))))
      (c :: twoClips)
    /\ startTime c = 4.
Proof.
  destruct (drop_adds_one_clip offline
              (editor [libraryVideo "a1" (Some 10)] twoClips)
              (libraryDragStart (libraryVideo "a1" (Some 10))) 4
              (JObject [("type"%string, JString "libraryAsset");
                        ("assetId"%string, JString "a1")])
              (libraryVideo "a1" (Some 10)) 10)
    as (c & Hperm & (_ & _ & _ & _ & Hstart & _) & _).
  - reflexivity.
  - split; [discriminate | split; reflexivity].
  - reflexivity.
  - exists c. split; assumption.
Defined.

(** X6.  When the dropped asset has no duration yet and
    [getMediaDuration] resolves to [d] (always 5 for an image, the
    duration the media element reports otherwise), the clip is placed with
    that duration and the duration is written to every library asset of
    that [id], the other assets being untouched.  The same payload dropped
    again is then placed without the media element being asked: it
    succeeds even when the element would now fail. *)
Theorem drop_resolves_and_caches (platform : Platform) (s : AppState)
  (data : string) (dropTime : Q) (parsed : JSValue)
  (assetToAdd : MediaAsset) (d : Q) :
  JSON_parse platform data = Normal parsed ->
  knownLibraryAsset s parsed assetToAdd ->
  Media.duration assetToAdd = None ->
  (Media.type assetToAdd = image /\ d = 5
   \/ Media.type assetToAdd <> image
      /\ mediaElement platform (Media.url assetToAdd) (Media.type assetToAdd)
         = loadedmetadata (Some d)) ->
  let s1 := fst (handleDropOnTimeline platform data dropTime s) in
  timelineAssets s1
  = appendSorted (newTimelineAsset platform assetToAdd dropTime d)
      (timelineAssets s)
  /\ libraryAssets s1
     = map (fun a =>
              if strictEqString (getProperty parsed "assetId") (Media.id a)
              then withDuration a (Some d) else a) (libraryAssets s)
  /\ (forall uuid' dropTime',
        let offlineNow :=
          mkPlatform (JSON_parse platform) (fun _ _ => error) uuid' in
        timelineAssets
          (fst (handleDropOnTimeline offlineNow data dropTime' s1))
        = appendSorted
            (newTimelineAsset offlineNow (withDuration assetToAdd (Some d))
               dropTime' d)
            (timelineAssets s1)).
Proof.
  intros Hp Hk Hd Hres s1.
  pose proof (getMediaDuration_cases platform (Media.url assetToAdd)
                (Media.type assetToAdd) s d Hres) as Hg.
  pose proof (drop_resolves platform data dropTime s parsed assetToAdd d
                Hp Hk Hd Hg) as E.
  assert (E1 : s1 = fst (handleDropOnTimeline platform data dropTime s))
    by reflexivity.
  rewrite E in E1. simpl in E1.
  split; [rewrite E1; reflexivity | split; [rewrite E1; reflexivity|]].
  intros uuid' dropTime' offlineNow.
  destruct Hk as (Hn & Ht & Hf).
  rewrite (drop_places offlineNow data dropTime' s1 parsed
             (withDuration assetToAdd (Some d)) d); try reflexivity.
  - exact Hp.
  - split; [exact Hn | split; [exact Ht|]].
    rewrite E1. simpl. rewrite find_map_keeps.
    + unfold MediaAsset in *. rewrite Hf. simpl.
      apply find_some in Hf as [_ Hid]. rewrite Hid. reflexivity.
    + intro a.
      destruct (strictEqString (getProperty parsed "assetId") (Media.id a))
        eqn:Ea; simpl; rewrite Ea; reflexivity.
Qed.

Lemma drop_resolves_and_caches_witness :
  timelineAssets
    (fst (handleDropOnTimeline (browser (fun _ => Some 8) "u1")
            (libraryDragStart pendingVideo) 4
            (editor [pendingVideo] [])))
  = appendSorted
      (newTimelineAsset (browser (fun _ => Some 8) "u1") pendingVideo 4 8)
      [].
Proof.
  apply (drop_resolves_and_caches (browser (fun _ => Some 8) "u1")
           (editor [pendingVideo] []) (libraryDragStart pendingVideo) 4
           (JObject [("type"%string, JString "libraryAsset");
                     ("assetId"%string, JString "a1")])
           pendingVideo 8).
  - reflexivity.
  - split; [discriminate | split; reflexivity].
  - reflexivity.
  - right. split; [discriminate | reflexivity].
Defined.

Lemma find_unique_id (a : MediaAsset) (library : list MediaAsset) :
  In a library ->
  (forall b, In b library -> Media.id b = Media.id a -> b = a) ->
  find (fun b => strictEqString (Some (JString (Media.id a))) (Media.id b))
    library = Some a.
Proof.
  intros Hin Huniq. induction library as [|b l IH]; [contradiction|].
  simpl. destruct (String.eqb_spec (Media.id a) (Media.id b)) as [E|Hne];
    simpl.
  - rewrite (Huniq b); [reflexivity | now left | symmetry; exact E].
  - destruct Hin as [-> | Hin]; [congruence|].
    apply IH; [exact Hin|]. intros c Hc. apply Huniq. now right.
Qed.

(** X7.  Drag and drop from the library, end to end: on a platform whose
    [JSON.parse] reads the payload of [handleDragStart] (LeftPanel) back as
    the object that was written, dropping the payload of an asset of the
    library with a known duration and an [id] of its own places a clip of
    that asset at the drop time. *)
Theorem library_drag_then_drop (platform : Platform) (s : AppState)
  (asset : MediaAsset) (d dropTime : Q) :
  JSON_parse platform (libraryDragStart asset)
  = Normal (JObject [("type"%string, JString "libraryAsset");
                     ("assetId"%string, JString (Media.id asset))]) ->
  In asset (libraryAssets s) ->
  (forall b, In b (libraryAssets s) ->
             Media.id b = Media.id asset -> b = asset) ->
  Media.duration asset = Some d ->
  handleDropOnTimeline platform (libraryDragStart asset) dropTime s
  = (mkAppState (libraryAssets s)
       (appendSorted (newTimelineAsset platform asset dropTime d)
          (timelineAssets s))
       (console s),
     Normal tt).
Proof.
  intros Hp Hin Huniq Hd.
  apply (drop_places platform (libraryDragStart asset) dropTime s _ asset d
           Hp); [|exact Hd].
  split; [discriminate | split; [reflexivity|]].
  simpl. apply find_unique_id; assumption.
Qed.

Lemma library_drag_then_drop_witness :
  timelineAssets
    (fst (handleDropOnTimeline offline
            (libraryDragStart (libraryVideo "a1" (Some 10))) 7
            (editor [libraryVideo "a0" None; libraryVideo "a1" (Some 10)]
               twoClips)))
  = [clip "t1" 0 5; clip "t2" 5 5;
     newTimelineAsset offline (libraryVideo "a1" (Some 10)) 7 10].
Proof.
  rewrite (library_drag_then_drop offline
             (editor [libraryVideo "a0" None; libraryVideo "a1" (Some 10)]
                twoClips)
             (libraryVideo "a1" (Some 10)) 10 7).
  - reflexivity.
  - reflexivity.
  - right. left. reflexivity.
  - intros b [E | [E | []]] Hid; subst b; [discriminate Hid | reflexivity].
  - reflexivity.
Defined.

(* ================================================================= *)
(** * Further properties of the resolver and of the synchroniser *)




Lemma in_syncEffect_seek (active : option Asset) (playing : bool) (t : Q)
  (refs : Refs) (element : OutputElement) (offset : Q) :
  In (Seek element offset) (syncEffect active playing t refs) ->
  exists c reads,
    active = Some (PlacedAsset c) /\ playing = true
    /\ elementFor (type c) = Some element
    /\ refOf element refs = Some reads
    /\ offset = effectiveTime t c
    /\ (2 # 10) < Qabs (elementTime reads - effectiveTime t c).
Proof.
  unfold syncEffect, pauseIfMounted.
  destruct active as [a|].
  - destruct (elementFor (assetType a)) as [el|] eqn:Eel; [|simpl; intros []].
    destruct (refOf el refs) as [reads|] eqn:Eref; [|simpl; intros []].
    intro H. apply in_app_or in H as [H|H].
    + destruct (String.eqb (assetUrl a) (src reads)); [destruct H|].
      destruct H as [H|[]]. discriminate H.
    + destruct playing; [|destruct H as [H|[]]; discriminate H].
      apply in_app_or in H as [H|H];
        [|destruct H as [H|[]]; discriminate H].
      destruct a as [m|c]; [destruct H|].
      destruct (Qle_bool (Qabs (elementTime reads - effectiveTime t c))
                  (2 # 10)) eqn:Edrift; [destruct H|].
      destruct H as [H|[]]. injection H as <- <-.
      apply Qle_bool_false in Edrift.
      exists c, reads. repeat split; try assumption; reflexivity.
  - unfold refOf; destruct (videoRef refs), (audioRef refs); simpl; intuition congruence.
Qed.

(** X9.  The synchroniser seeks an element only while playing, only for a
    clip, and only when the element has drifted more than 0.2 s from the
    target.  When the clip is the one the playhead is in, the target
    [t - startTime + trimStart] lies inside the part of the source the
    trims keep: at or after [trimStart], and before
    [duration - trimEnd]. *)
Theorem seek_inside_trimmed_source (t : Q) (clips : list TimelineAsset)
  (previewAsset : option Asset) (playing : bool) (refs : Refs)
  (element : OutputElement) (offset : Q) :
  noClipSelected previewAsset ->
  In (Seek element offset)
    (syncEffect (activeAsset t clips previewAsset) playing t refs) ->
  playing = true
  /\ exists c reads,
       In c clips
       /\ refOf element refs = Some reads
       /\ offset = t - startTime c + trimStart c
       /\ (2 # 10) < Qabs (elementTime reads - offset)
       /\ trimStart c <= offset
       /\ offset < orZero (duration c) - trimEnd c.
Proof.
  intros Hsel Hin.
  apply in_syncEffect_seek in Hin
    as (c & reads & Hact & Hp & _ & Href & Hoff & Hdrift).
  split; [exact Hp|].
  assert (Hc : In c clips
               /\ startTime c <= t < startTime c + effectiveDuration c).
  { unfold activeAsset in Hact.
    destruct previewAsset as [[a|p]|].
    - destruct (find (isPlayingAt t) clips) as [c0|] eqn:Hf;
        [|discriminate Hact].
      injection Hact as ->. apply find_some in Hf as [Hi Hw].
      apply isPlayingAt_iff in Hw. split; assumption.
    - exfalso. apply (Hsel p). reflexivity.
    - destruct (find (isPlayingAt t) clips) as [c0|] eqn:Hf;
        [|discriminate Hact].
      injection Hact as ->. apply find_some in Hf as [Hi Hw].
      apply isPlayingAt_iff in Hw. split; assumption. }
  destruct Hc as [Hi [Hlo Hhi]].
  exists c, reads. subst offset. unfold effectiveTime in *.
  unfold effectiveDuration in Hhi.
  repeat split; try assumption; try reflexivity; lra.
Qed.

Lemma seek_inside_trimmed_source_witness :
  exists c reads,
    In c twoClips
    /\ refOf videoElement (mkRefs (Some (mkElementReads "blob:t2" 0)) None)
       = Some reads
    /\ 2 = 7 - startTime c + trimStart c
    /\ (2 # 10) < Qabs (elementTime reads - 2)
    /\ trimStart c <= 2
    /\ 2 < orZero (duration c) - trimEnd c.
Proof.
  apply (seek_inside_trimmed_source 7 twoClips None true
           (mkRefs (Some (mkElementReads "blob:t2" 0)) None)
           videoElement 2).
  - intro c. discriminate.
  - left. reflexivity.
Defined.

(** X10.  The synchroniser commands at most one element, the one of the
    active asset's type, and only if it is mounted; an image gets no
    command.  It plays only while the transport is playing, and while the
    transport is not playing it neither plays nor seeks: it pauses the
    element it drives.  With no active asset it only pauses. *)
Theorem syncEffect_commands (active : option Asset) (playing : bool)
  (t : Q) (refs : Refs) :
  (forall element, In (Play element) (syncEffect active playing t refs) ->
     playing = true
     /\ exists a, active = Some a
                  /\ elementFor (assetType a) = Some element)
  /\ (playing = false ->
      forall command, In command (syncEffect active playing t refs) ->
        (exists element, command = Pause element)
        \/ (exists element u, command = SetSrc element u))
  /\ (active = None ->
      forall command, In command (syncEffect active playing t refs) ->
        exists element, command = Pause element)
  /\ (forall a, active = Some a -> assetType a = image ->
        syncEffect active playing t refs = [])
  /\ (forall a element, active = Some a ->
        elementFor (assetType a) = Some element ->
        refOf element refs <> None ->
        In (if playing then Play element else Pause element)
          (syncEffect active playing t refs)).
Proof.
  split; [|split; [|split; [|split]]].
  - intros element. unfold syncEffect, pauseIfMounted.
    destruct active as [a|].
    + destruct (elementFor (assetType a)) as [el|] eqn:Eel; [|simpl; intros []].
      destruct (refOf el refs) as [reads|]; [|simpl; intros []].
      intro H. apply in_app_or in H as [H|H].
      * destruct (String.eqb (assetUrl a) (src reads)); [destruct H|].
        destruct H as [H|[]]. discriminate H.
      * destruct playing; [|destruct H as [H|[]]; discriminate H].
        split; [reflexivity|]. exists a. split; [reflexivity|].
        apply in_app_or in H as [H|H].
        -- destruct a as [m|c]; [destruct H|].
           destruct (negb _); [|destruct H].
           destruct H as [H|[]]. discriminate H.
        -- destruct H as [H|[]]. injection H as <-. exact Eel.
    + unfold refOf; destruct (videoRef refs), (audioRef refs); simpl;
        intuition congruence.
  - intros -> command. unfold syncEffect, pauseIfMounted.
    destruct active as [a|].
    + destruct (elementFor (assetType a)) as [el|]; [|simpl; intros []].
      destruct (refOf el refs) as [reads|]; [|simpl; intros []].
      intro H. apply in_app_or in H as [H|H].
      * destruct (String.eqb (assetUrl a) (src reads)); [destruct H|].
        destruct H as [H|[]]. right. eauto.
      * destruct H as [H|[]]. left. eauto.
    + unfold refOf; destruct (videoRef refs), (audioRef refs); simpl;
        intuition (subst; eauto).
  - intros -> command. unfold syncEffect, pauseIfMounted.
    unfold refOf; destruct (videoRef refs), (audioRef refs); simpl; intuition (subst; eauto).
  - intros a -> Hi. unfold syncEffect. rewrite Hi. reflexivity.
  - intros a element -> Hel Href. unfold syncEffect. rewrite Hel.
    destruct (refOf element refs) as [reads|]; [|congruence].
    apply in_or_app. right.
    destruct playing; [|now left].
    apply in_or_app. right. now left.
Qed.

Lemma syncEffect_commands_witness :
  syncEffect (Some (PlacedAsset (clip "t1" 0 5))) false 3
    (mkRefs (Some (mkElementReads "blob:t1" 0)) None)
  = [Pause videoElement]
  /\ forall command,
       In command
         (syncEffect (Some (PlacedAsset (clip "t1" 0 5))) false 3
            (mkRefs (Some (mkElementReads "blob:t1" 0)) None)) ->
       (exists element, command = Pause element)
       \/ (exists element u, command = SetSrc element u).
Proof.
  split; [reflexivity|].
  apply (proj1 (proj2 (syncEffect_commands
                         (Some (PlacedAsset (clip "t1" 0 5))) false 3
                         (mkRefs (Some (mkElementReads "blob:t1" 0)) None)))).
  reflexivity.
Defined.

(* ================================================================= *)
(** * Further properties of the transport *)

(** X11.  A playhead drag puts the playhead inside [0, totalDuration]
    wherever the pointer is, at the time under the pointer when that time
    is in the range; it leaves the play state alone, and the same pointer
    position applied again changes nothing. *)
Theorem playhead_drag_clamps (clips : list TimelineAsset)
  (zoom x scrollLeft : Q) (s : Transport) :
  let D := totalDuration clips in
  let t := (x + scrollLeft) / (PIXELS_PER_SECOND * zoom) in
  let s' := transportStep clips s (PlayheadDrag zoom x scrollLeft) in
  0 <= currentTime s' <= D
  /\ isPlaying s' = isPlaying s
  /\ (0 <= t <= D -> currentTime s' == t)
  /\ (t < 0 -> currentTime s' == 0)
  /\ (D < t -> currentTime s' == D)
  /\ transportStep clips s' (PlayheadDrag zoom x scrollLeft) = s'.
Proof.
  intros D t s'. simpl in s'. unfold onMouseMove in s'. fold D t in s'.
  pose proof (totalDuration_floor clips) as HD. fold D in HD.
  subst s'. simpl. repeat split.
  - apply Q.min_glb; [apply Q.le_max_l | lra].
  - apply Q.le_min_r.
  - intros [H0 H1]. rewrite (Q.max_r 0 t) by exact H0.
    apply Q.min_l. exact H1.
  - intro H. rewrite (Q.max_l 0 t) by lra. apply Q.min_l. lra.
  - intro H. rewrite (Q.max_r 0 t) by lra. apply Q.min_r. lra.
Qed.

Lemma playhead_drag_clamps_witness :
  currentTime (transportStep [] initialTransport (PlayheadDrag 1 100 0))
  == (100 + 0) / (PIXELS_PER_SECOND * 1).
Proof.
  apply (proj1 (proj2 (proj2 (playhead_drag_clamps [] 1 100 0
                                initialTransport)))).
  vm_compute. split; discriminate.
Defined.

Lemma inject_nat_succ (k : nat) :
  inject_Z (Z.of_nat (S k)) == inject_Z (Z.of_nat k) + 1.
Proof.
  rewrite Nat2Z.inj_succ. unfold Z.succ. rewrite inject_Z_plus. reflexivity.
Qed.

Lemma frames_while_stopped (clips : list TimelineAsset) (n : nat)
  (s : Transport) :
  isPlaying s = false ->
  fold_left (transportStep clips) (repeat Frame n) s = s.
Proof.
  intro H. induction n as [|n IH]; simpl; [reflexivity|].
  rewrite H. exact IH.
Qed.

Lemma frames_until_stop (clips : list TimelineAsset) (k : nat) :
  forall s,
    isPlaying s = true ->
    (totalDuration clips - currentTime s) * 60 <= inject_Z (Z.of_nat k) ->
    fold_left (transportStep clips) (repeat Frame (S k)) s
    = mkTransport false 0.
Proof.
  induction k as [|k IH]; intros s Hp Hk.
  - simpl. rewrite Hp. unfold tick.
    assert (E : Qle_bool (totalDuration clips) (currentTime s) = true).
    { apply Qle_bool_true. change (inject_Z (Z.of_nat 0)) with 0 in Hk. lra. }
    rewrite E. reflexivity.
  - change (repeat Frame (S (S k))) with (Frame :: repeat Frame (S k)).
    cbn [fold_left transportStep]. rewrite Hp. unfold tick.
    destruct (Qle_bool (totalDuration clips) (currentTime s)) eqn:E.
    + apply frames_while_stopped. reflexivity.
    + apply Qle_bool_false in E. apply IH; [exact Hp|].
      rewrite inject_nat_succ in Hk. cbn [currentTime].
      assert (F : 1 / 60 == 1 # 60) by reflexivity. rewrite F. lra.
Qed.

(** X12.  Playback always ends: from any state in which the transport is
    playing, wherever the playhead is and whatever the timeline, a finite
    number of frames stops the transport with the playhead at 0, and
    further frames leave it there. *)
Theorem playback_ends (clips : list TimelineAsset) (s : Transport) :
  isPlaying s = true ->
  exists n,
    forall m, (n <= m)%nat ->
      fold_left (transportStep clips) (repeat Frame m) s
      = mkTransport false 0.
Proof.
  intro Hp.
  set (k := Z.to_nat (Qceiling ((totalDuration clips - currentTime s) * 60))).
  exists (S k). intros m Hm.
  replace m with (S k + (m - S k))%nat by lia.
  rewrite repeat_app, fold_left_app.
  rewrite (frames_until_stop clips k s Hp).
  - apply frames_while_stopped. reflexivity.
  - eapply Qle_trans; [apply Qle_ceiling|].
    rewrite <- Zle_Qle. unfold k. lia.
Qed.

Lemma playback_ends_witness :
  exists n,
    forall m, (n <= m)%nat ->
      fold_left (transportStep twoClips) (repeat Frame m)
        (mkTransport true 14)
      = mkTransport false 0.
Proof.
  apply (playback_ends twoClips (mkTransport true 14)). reflexivity.
Defined.




(* ================================================================= *)
(** * Zoom and geometry *)

Lemma zoomStep_range (z : Q) (e : ZoomEvent) :
  (forall v, e = ZoomSlider v -> (1 # 10) <= v <= 5) ->
  (1 # 10) <= z <= 5 ->
  (1 # 10) <= zoomStep z e <= 5.
Proof.
  intros He [Hlo Hhi]. destruct e as [| |v]; simpl.
  - split; [apply Q.le_max_l | apply Q.max_lub; lra].
  - split; [apply Q.min_glb; lra | apply Q.le_min_l].
  - apply He. reflexivity.
Qed.

(** X14.  The zoom stays in [0.1, 5]: the buttons clamp at both ends, so
    after any sequence of button presses, and of slider moves to values
    the slider offers (0.1 to 5), the zoom is in that range; in particular
    the pixel scale [PIXELS_PER_SECOND * zoom] every conversion divides by
    is never 0. *)
Theorem zoom_in_range (events : list ZoomEvent) :
  (forall v, In (ZoomSlider v) events -> (1 # 10) <= v <= 5) ->
  (1 # 10) <= zoomRun events <= 5
  /\ 0 < PIXELS_PER_SECOND * zoomRun events.
Proof.
  intro Hs.
  assert (H : (1 # 10) <= zoomRun events <= 5).
  { unfold zoomRun.
    assert (Hinit : (1 # 10) <= initialZoom <= 5)
      by (split; discriminate).
    revert Hinit. generalize initialZoom.
    induction events as [|e events IH]; simpl; intros z Hz; [exact Hz|].
    apply IH.
    - intros v Hv. apply Hs. now right.
    - apply zoomStep_range; [|exact Hz].
      intros v ->. apply Hs. now left. }
  split; [exact H|]. unfold PIXELS_PER_SECOND. lra.
Qed.

Lemma zoom_in_range_witness :
  (1 # 10) <= zoomRun [ZoomOut; ZoomSlider (2 # 10); ZoomOut; ZoomOut] <= 5.
Proof.
  apply (zoom_in_range [ZoomOut; ZoomSlider (2 # 10); ZoomOut; ZoomOut]).
  intros v [E | [E | [E | [E | []]]]]; try discriminate E.
  injection E as <-. split; discriminate.
Defined.

(** X15.  Pointer and picture agree.  With a positive zoom, a library
    asset dropped at pointer offset [x] is drawn with its left edge at
    [x + scrollLeft], and the playhead dragged to a pointer offset inside
    the track is drawn at [x + scrollLeft]. *)
Theorem pointer_round_trip (platform : Platform) (s : AppState)
  (zoom x scrollLeft : Q) (data : string) (parsed : JSValue)
  (assetToAdd : MediaAsset) (d : Q) (transport : Transport) :
  0 < zoom ->
  (JSON_parse platform data = Normal parsed ->
   knownLibraryAsset s parsed assetToAdd ->
   Media.duration assetToAdd = Some d ->
   exists c,
     In c (timelineAssets (fst (handleDrop platform zoom x scrollLeft data s)))
     /\ timelineId c = randomUUID platform
     /\ clipLeft zoom c == x + scrollLeft
     /\ clipWidth zoom c == orZero (Some d) * PIXELS_PER_SECOND * zoom)
  /\ (0 <= x + scrollLeft <= trackWidth zoom (timelineAssets s) ->
      playheadLeft zoom
        (transportStep (timelineAssets s) transport
           (PlayheadDrag zoom x scrollLeft))
      == x + scrollLeft).
Proof.
  intro Hz.
  assert (Hscale : ~ PIXELS_PER_SECOND * zoom == 0)
    by (unfold PIXELS_PER_SECOND; lra).
  split.
  - intros Hp Hk Hd. unfold handleDrop.
    rewrite (drop_places platform data _ s parsed assetToAdd d Hp Hk Hd).
    exists (newTimelineAsset platform assetToAdd
              ((x + scrollLeft) / (PIXELS_PER_SECOND * zoom)) d).
    split; [|split; [reflexivity|split]].
    + simpl. unfold appendSorted.
      apply (Permutation_in _ (Permutation_sym (sort_perm _))).
      apply in_or_app. right. left. reflexivity.
    + unfold clipLeft. cbn [startTime newTimelineAsset].
      rewrite <- Qmult_assoc. field.
      split; [lra | unfold PIXELS_PER_SECOND; discriminate].
    + unfold clipWidth, effectiveDuration.
      cbn [duration trimStart trimEnd newTimelineAsset]. ring.
  - intros [H0 H1]. unfold playheadLeft, trackWidth in *. simpl.
    set (t := (x + scrollLeft) / (PIXELS_PER_SECOND * zoom)).
    assert (Ht : t * (PIXELS_PER_SECOND * zoom) == x + scrollLeft)
      by (unfold t; field;
          split; [lra | unfold PIXELS_PER_SECOND; discriminate]).
    assert (Hpos : 0 < PIXELS_PER_SECOND * zoom)
      by (unfold PIXELS_PER_SECOND; lra).
    assert (Ht0 : 0 <= t) by nra.
    assert (Ht1 : t <= totalDuration (timelineAssets s)) by nra.
    rewrite (Q.max_r 0 t) by exact Ht0.
    rewrite (Q.min_l t _) by exact Ht1.
    rewrite <- Qmult_assoc. exact Ht.
Qed.

Lemma pointer_round_trip_witness :
  (exists c,
      In c (timelineAssets
              (fst (handleDrop offline 2 300 40
                      (libraryDragStart (libraryVideo "a1" (Some 10)))
                      (editor [libraryVideo "a1" (Some 10)] twoClips))))
      /\ timelineId c = randomUUID offline
      /\ clipLeft 2 c == 300 + 40
      /\ clipWidth 2 c == orZero (Some 10) * PIXELS_PER_SECOND * 2)
  /\ playheadLeft 2
       (transportStep twoClips initialTransport (PlayheadDrag 2 300 40))
     == 300 + 40.
Proof.
  destruct (pointer_round_trip offline
              (editor [libraryVideo "a1" (Some 10)] twoClips) 2 300 40
              (libraryDragStart (libraryVideo "a1" (Some 10)))
              (JObject [("type"%string, JString "libraryAsset");
                        ("assetId"%string, JString "a1")])
              (libraryVideo "a1" (Some 10)) 10 initialTransport)
    as [Hdrop Hdrag].
  - reflexivity.
  - split.
    + apply Hdrop.
      * reflexivity.
      * split; [discriminate | split; reflexivity].
      * reflexivity.
    + apply Hdrag. vm_compute. split; discriminate.
Defined.

(* ================================================================= *)
(** * Further properties of the trim gesture *)

Lemma handleMouseMove_left (asset : TimelineAsset) (zoom startX clientX : Q) :
  handleMouseMove (mkResizeState side_left startX) asset zoom clientX
  = let deltaTime := (clientX - startX) / (PIXELS_PER_SECOND * zoom) in
    let newTrimStart := Qmax 0 (trimStart asset + deltaTime) in
    let newStartTime := startTime asset + deltaTime in
    if Qle_bool 0 newStartTime
       && negb (Qle_bool
                  (orZero (duration asset) - newTrimStart - trimEnd asset)
                  (1 # 10))
    then Some (timelineId asset, leftTrimUpdate newTrimStart newStartTime)
    else None.
Proof. reflexivity. Qed.

Lemma handleMouseMove_right (asset : TimelineAsset)
  (zoom startX clientX : Q) :
  handleMouseMove (mkResizeState side_right startX) asset zoom clientX
  = let deltaTime := (clientX - startX) / (PIXELS_PER_SECOND * zoom) in
    let newTrimEnd := Qmax 0 (trimEnd asset - deltaTime) in
    if negb (Qle_bool
               (orZero (duration asset) - trimStart asset - newTrimEnd)
               (1 # 10))
    then Some (timelineId asset, rightTrimUpdate newTrimEnd)
    else None.
Proof. reflexivity. Qed.



(** X17.  Whatever edge is dragged and however far, an update that
    [handleMouseMove] makes is for the dragged clip and leaves it a proper
    clip: an effective duration above 0.1, the trim it changed not
    negative, and for the left edge a start time not negative.  A drag of
    the left edge never touches [trimEnd]; a drag of the right edge never
    touches [startTime] or [trimStart]; neither touches the source. *)
Theorem accepted_trim_is_valid (resizeState : ResizeState)
  (asset : TimelineAsset) (zoom clientX : Q) (tid : string)
  (updates : PartialTimelineAsset) :
  handleMouseMove resizeState asset zoom clientX = Some (tid, updates) ->
  let after := spread asset updates in
  tid = timelineId asset
  /\ (1 # 10) < effectiveDuration after
  /\ (side resizeState = side_left ->
      0 <= startTime after /\ 0 <= trimStart after
      /\ trimEnd after = trimEnd asset)
  /\ (side resizeState = side_right ->
      0 <= trimEnd after /\ startTime after = startTime asset
      /\ trimStart after = trimStart asset)
  /\ (id after = id asset /\ url after = url asset
      /\ type after = type asset /\ duration after = duration asset
      /\ timelineId after = timelineId asset).
Proof.
  destruct resizeState as [[|] x0]; unfold handleMouseMove; cbv zeta;
    cbn [side startX].
  - destruct (Qle_bool 0 _ && _) eqn:E; [|discriminate].
    intro H. injection H as <- <-.
    apply andb_true_iff in E as [E0 E1].
    apply Qle_bool_true in E0. apply negb_true_iff, Qle_bool_false in E1.
    cbv zeta. unfold effectiveDuration. simpl.
    repeat split; try assumption; try discriminate.
    apply Q.le_max_l.
  - destruct (negb _) eqn:E; [|discriminate].
    intro H. injection H as <- <-.
    apply negb_true_iff, Qle_bool_false in E.
    cbv zeta. unfold effectiveDuration. simpl.
    repeat split; try assumption; try discriminate.
    apply Q.le_max_l.
Qed.

Lemma accepted_trim_is_valid_witness :
  (1 # 10)
  < effectiveDuration
      (spread tenSeconds
         (leftTrimUpdate (Qmax 0 (0 + (250 - 100) / (PIXELS_PER_SECOND * 1)))
            (2 + (250 - 100) / (PIXELS_PER_SECOND * 1)))).
Proof.
  apply (accepted_trim_is_valid (mkResizeState side_left 100) tenSeconds 1
           250 "t1"
           (leftTrimUpdate (Qmax 0 (0 + (250 - 100) / (PIXELS_PER_SECOND * 1)))
              (2 + (250 - 100) / (PIXELS_PER_SECOND * 1)))).
  reflexivity.
Defined.

(** X18.  What moves under an accepted trim.  Dragging the left edge to
    the right, or to the left no further than the head of the source, keeps
    the right end of the clip where it was and moves the left edge with the
    pointer; dragged further left than the head of the source, the clip
    keeps its whole head and its right end moves left too.  Dragging the
    right edge keeps the left edge, and moves the right end with the
    pointer as long as the tail of the source is not exhausted. *)
Theorem trim_moves_one_edge (asset : TimelineAsset)
  (zoom startX clientX : Q) (tid : string) (updates : PartialTimelineAsset) :
  let deltaTime := (clientX - startX) / (PIXELS_PER_SECOND * zoom) in
  (handleMouseMove (mkResizeState side_left startX) asset zoom clientX
   = Some (tid, updates) ->
   startTime (spread asset updates) == startTime asset + deltaTime
   /\ (0 <= trimStart asset + deltaTime ->
       clipEnd (spread asset updates) == clipEnd asset)
   /\ (trimStart asset + deltaTime < 0 ->
       trimStart (spread asset updates) == 0
       /\ clipEnd (spread asset updates)
          == clipEnd asset + (trimStart asset + deltaTime)))
  /\ (handleMouseMove (mkResizeState side_right startX) asset zoom clientX
      = Some (tid, updates) ->
      startTime (spread asset updates) = startTime asset
      /\ (0 <= trimEnd asset - deltaTime ->
          clipEnd (spread asset updates) == clipEnd asset + deltaTime)
      /\ (trimEnd asset - deltaTime < 0 ->
          trimEnd (spread asset updates) == 0)).
Proof.
  intro deltaTime. split.
  - rewrite handleMouseMove_left. cbv zeta. fold deltaTime.
    destruct (Qle_bool 0 _ && _); [|discriminate].
    intro H. injection H as <- <-.
    unfold clipEnd, effectiveDuration. simpl.
    split; [reflexivity|split].
    + intro H0. rewrite (Q.max_r 0 _ H0). ring.
    + intro H0. assert (H1 : trimStart asset + deltaTime <= 0) by lra.
      rewrite (Q.max_l 0 _ H1). split; [reflexivity | ring].
  - rewrite handleMouseMove_right. cbv zeta. fold deltaTime.
    destruct (negb _); [|discriminate].
    intro H. injection H as <- <-.
    unfold clipEnd, effectiveDuration. simpl.
    split; [reflexivity|split].
    + intro H0. rewrite (Q.max_r 0 _ H0). ring.
    + intro H0. assert (H1 : trimEnd asset - deltaTime <= 0) by lra.
      rewrite (Q.max_l 0 _ H1). reflexivity.
Qed.

Lemma trim_moves_one_edge_witness :
  clipEnd
    (spread tenSeconds
       (leftTrimUpdate (Qmax 0 (0 + (250 - 100) / (PIXELS_PER_SECOND * 1)))
          (2 + (250 - 100) / (PIXELS_PER_SECOND * 1))))
  == clipEnd tenSeconds.
Proof.
  apply (proj1 (trim_moves_one_edge tenSeconds 1 100 250 "t1"
                  (leftTrimUpdate
                     (Qmax 0 (0 + (250 - 100) / (PIXELS_PER_SECOND * 1)))
                     (2 + (250 - 100) / (PIXELS_PER_SECOND * 1))))).
  - reflexivity.
  - vm_compute. discriminate.
Defined.

(* ================================================================= *)
(** * The ruler and the time display *)

Lemma Qfloor_unique (x : Q) (z : Z) :
  inject_Z z <= x -> x < inject_Z (z + 1) -> Qfloor x = z.
Proof.
  intros Hlo Hhi.
  pose proof (Qfloor_le x) as Hf. pose proof (Qlt_floor x) as Hg.
  assert (H1 : (z < Qfloor x + 1)%Z).
  { rewrite Zlt_Qlt. eapply Qle_lt_trans; [exact Hlo | exact Hg]. }
  assert (H2 : (Qfloor x < z + 1)%Z).
  { rewrite Zlt_Qlt. eapply Qle_lt_trans; [exact Hf | exact Hhi]. }
  lia.
Qed.

Lemma rulerLoop_spec (D zoom interval : Q) (fuel : nat) :
  0 < interval ->
  forall i,
    D - i < inject_Z (Z.of_nat fuel) * interval ->
    exists ticks,
      rulerLoop (S fuel) D zoom interval i = Some ticks
      /\ (forall n t, nth_error ticks n = Some t ->
            tickTime t == i + inject_Z (Z.of_nat n) * interval
            /\ tickTime t <= D
            /\ tickLabel t = formatTime (tickTime t) D
            /\ minorTicks t = rulerMinorTicks D zoom interval (tickTime t))
      /\ D < i + inject_Z (Z.of_nat (List.length ticks)) * interval.
Proof.
  intro Hi. induction fuel as [|fuel IH]; intros i Hfuel.
  - change (inject_Z (Z.of_nat 0)) with 0 in Hfuel.
    exists []. cbn [rulerLoop].
    assert (E : Qle_bool i D = false) by (apply Qle_bool_false; lra).
    rewrite E. split; [reflexivity|split].
    + intros [|n] t H; discriminate H.
    + change (inject_Z (Z.of_nat (List.length (@nil RulerTick)))) with 0.
      lra.
  - rewrite inject_nat_succ in Hfuel.
    change (rulerLoop (S (S fuel)) D zoom interval i)
      with (if Qle_bool i D
            then match rulerLoop (S fuel) D zoom interval (i + interval) with
                 | Some ticks =>
                     Some (mkRulerTick i (formatTime i D)
                             (rulerMinorTicks D zoom interval i) :: ticks)
                 | None => None
                 end
            else Some []).
    destruct (Qle_bool i D) eqn:E.
    + apply Qle_bool_true in E.
      destruct (IH (i + interval)) as (ticks & Hrun & Hnth & Hlen);
        [nra|].
      rewrite Hrun. eexists. split; [reflexivity|split].
      * intros [|n] t H.
        -- injection H as <-. cbn [tickTime tickLabel minorTicks].
           change (inject_Z (Z.of_nat 0)) with 0.
           repeat split; try reflexivity; [lra | exact E].
        -- cbn [nth_error] in H.
           destruct (Hnth n t H) as (Ht & Hle & Hlab & Hmin).
           repeat split; try assumption.
           rewrite Ht, inject_nat_succ. ring.
      * cbn [List.length]. rewrite inject_nat_succ.
        eapply Qlt_le_trans; [exact Hlen|]. apply Qle_lteq. right. ring.
    + apply Qle_bool_false in E. exists [].
      split; [reflexivity|split].
      * intros [|n] t H; discriminate H.
      * change (inject_Z (Z.of_nat (List.length (@nil RulerTick)))) with 0.
        lra.
Qed.

Lemma rulerInterval_cases (zoom : Q) :
  ((5 # 10) < zoom /\ rulerInterval zoom = 1)
  \/ ((2 # 10) < zoom <= (5 # 10) /\ rulerInterval zoom = 5)
  \/ (zoom <= (2 # 10) /\ rulerInterval zoom = 10).
Proof.
  unfold rulerInterval.
  destruct (Qle_bool zoom (5 # 10)) eqn:E5; simpl.
  - apply Qle_bool_true in E5.
    destruct (Qle_bool zoom (2 # 10)) eqn:E2; simpl.
    + apply Qle_bool_true in E2. right. right. split; [exact E2|reflexivity].
    + apply Qle_bool_false in E2. right. left. repeat split; assumption.
  - apply Qle_bool_false in E5. left. split; [exact E5|reflexivity].
Qed.

(** X19.  The ruler.  [renderRuler] ends for every duration and zoom, on
    its loop test.  Major ticks stand every second when the zoom is above
    0.5, every 5 seconds when it is above 0.2, every 10 seconds below: the
    n-th tick is at [n * interval], none is past [totalDuration], and the
    next one would be.  Minor ticks appear only when the zoom is above 0.8,
    hence between one-second ticks, strictly inside their second and
    strictly before [totalDuration]. *)
Theorem ruler_ticks (totalDuration zoom : Q) :
  exists ticks,
    renderRuler totalDuration zoom = Some ticks
    /\ ((5 # 10) < zoom /\ rulerInterval zoom = 1
        \/ (2 # 10) < zoom <= (5 # 10) /\ rulerInterval zoom = 5
        \/ zoom <= (2 # 10) /\ rulerInterval zoom = 10)
    /\ (forall n t, nth_error ticks n = Some t ->
          tickTime t == inject_Z (Z.of_nat n) * rulerInterval zoom
          /\ tickTime t <= totalDuration
          /\ tickLabel t = formatTime (tickTime t) totalDuration)
    /\ totalDuration
       < inject_Z (Z.of_nat (List.length ticks)) * rulerInterval zoom
    /\ (forall t m, In t ticks -> In m (minorTicks t) ->
          (8 # 10) < zoom /\ rulerInterval zoom = 1
          /\ tickTime t < m < tickTime t + 1 /\ m < totalDuration).
Proof.
  pose proof (rulerInterval_cases zoom) as Hcases.
  assert (Hpos : 0 < rulerInterval zoom).
  { destruct Hcases as [[_ ->] | [[_ ->] | [_ ->]]]; reflexivity. }
  destruct (rulerLoop_spec totalDuration zoom (rulerInterval zoom)
              (S (Z.to_nat (Qfloor (totalDuration / rulerInterval zoom))))
              Hpos 0)
    as (ticks & Hrun & Hnth & Hlen).
  { rewrite inject_nat_succ.
    pose proof (Qlt_floor (totalDuration / rulerInterval zoom)) as Hf.
    rewrite inject_Z_plus in Hf.
    assert (Hz : inject_Z (Qfloor (totalDuration / rulerInterval zoom))
                 <= inject_Z
                      (Z.of_nat
                         (Z.to_nat
                            (Qfloor (totalDuration / rulerInterval zoom))))).
    { rewrite <- Zle_Qle. lia. }
    assert (Hd : totalDuration
                 == totalDuration / rulerInterval zoom * rulerInterval zoom)
      by (field; lra).
    change (inject_Z 1) with 1 in Hf.
    set (q := totalDuration / rulerInterval zoom) in *.
    set (k := inject_Z (Z.of_nat (Z.to_nat (Qfloor q)))) in *.
    rewrite Hd. nra. }
  exists ticks. split; [exact Hrun|]. split; [exact Hcases|].
  split; [|split].
  - intros n t H. destruct (Hnth n t H) as (Ht & Hle & Hlab & _).
    repeat split; try assumption. rewrite Ht. ring.
  - eapply Qlt_le_trans; [exact Hlen|]. apply Qle_lteq. right. ring.
  - intros t m Ht Hm. apply In_nth_error in Ht as [n Hn].
    destruct (Hnth n t Hn) as (_ & _ & _ & Hmin).
    rewrite Hmin in Hm. unfold rulerMinorTicks in Hm.
    destruct (Qle_bool zoom (8 # 10)) eqn:E8; [destruct Hm|].
    apply Qle_bool_false in E8. cbn [negb] in Hm.
    apply filter_In in Hm as [Hm Hlt].
    apply negb_true_iff, Qle_bool_false in Hlt.
    assert (Hone : rulerInterval zoom = 1).
    { destruct Hcases as [[_ E] | [[[_ H5] _] | [H2 _]]];
        [exact E | lra | lra]. }
    rewrite Hone in Hm.
    split; [exact E8|]. split; [exact Hone|]. split; [|exact Hlt].
    cbn [map In] in Hm.
    destruct Hm as [<- | [<- | [<- | [<- | []]]]].
    + assert (F : 1 * 1 / 5 == 1 # 5) by reflexivity. rewrite F. lra.
    + assert (F : 2 * 1 / 5 == 2 # 5) by reflexivity. rewrite F. lra.
    + assert (F : 3 * 1 / 5 == 3 # 5) by reflexivity. rewrite F. lra.
    + assert (F : 4 * 1 / 5 == 4 # 5) by reflexivity. rewrite F. lra.
Qed.

Lemma two_digits (n : nat) :
  (n < 60)%nat ->
  String.length (padStart 2 "0" (integerToString (Z.of_nat n))) = 2%nat.
Proof.
  intro H. do 60 (destruct n as [|n]; [reflexivity|]). lia.
Qed.

(** X20.  The time display of a long timeline.  When [totalDuration] is
    60 s or more, a time that is not negative is shown as minutes, a colon
    and two digits of seconds: the seconds are below 60, and minutes and
    seconds together are the whole seconds of the time. *)
Theorem formatTime_minutes (time totalDuration : Q) :
  60 <= totalDuration ->
  0 <= time ->
  exists minutes seconds : Z,
    formatTime time totalDuration
    = (integerToString minutes ++ ":"
       ++ padStart 2 "0" (integerToString seconds))%string
    /\ (0 <= minutes)%Z /\ (0 <= seconds < 60)%Z
    /\ (60 * minutes + seconds)%Z = Qfloor time
    /\ String.length (padStart 2 "0" (integerToString seconds)) = 2%nat.
Proof.
  intros HD Ht.
  set (m := Qfloor (time / 60)).
  assert (Hm0 : inject_Z m <= time / 60) by apply Qfloor_le.
  assert (Hm1 : time / 60 < inject_Z (m + 1)) by apply Qlt_floor.
  rewrite inject_Z_plus in Hm1. change (inject_Z 1) with 1 in Hm1.
  assert (Hdiv : time == time / 60 * 60) by (field; discriminate).
  assert (Hmpos : (0 <= m)%Z).
  { unfold m. change 0%Z with (Qfloor 0). apply Qfloor_resp_le.
    apply Qle_shift_div_l; [reflexivity | lra]. }
  assert (Hrem : remainder time 60 == time - 60 * inject_Z m).
  { unfold remainder, m, Qfloor.
    destruct (time / 60) as [num den] eqn:Eq. cbn [Qnum Qden].
    assert (Hnum : (0 <= num)%Z).
    { assert (Hq : 0 <= time / 60)
        by (apply Qle_shift_div_l; [reflexivity | lra]).
      rewrite Eq in Hq. unfold Qle in Hq. simpl in Hq. lia. }
    rewrite Z.quot_div_nonneg by lia. reflexivity. }
  set (q := time / 60) in *.
  assert (Hs0 : 0 <= remainder time 60) by (rewrite Hrem, Hdiv; lra).
  assert (Hs1 : remainder time 60 < 60) by (rewrite Hrem, Hdiv; lra).
  set (sec := Qfloor (remainder time 60)).
  assert (Hsec0 : (0 <= sec)%Z).
  { unfold sec. change 0%Z with (Qfloor 0). apply Qfloor_resp_le, Hs0. }
  assert (Hsec1 : (sec < 60)%Z).
  { unfold sec. rewrite Zlt_Qlt.
    eapply Qle_lt_trans; [apply Qfloor_le | exact Hs1]. }
  exists m, sec.
  split; [|split; [exact Hmpos | split; [lia | split]]].
  - unfold formatTime.
    assert (E : Qle_bool 60 totalDuration = true)
      by (apply Qle_bool_true; exact HD).
    rewrite E. reflexivity.
  - symmetry. apply Qfloor_unique.
    + rewrite inject_Z_plus, inject_Z_mult.
      change (inject_Z 60) with 60.
      pose proof (Qfloor_le (remainder time 60)) as Hf. fold sec in Hf.
      rewrite Hrem in Hf. lra.
    + rewrite !inject_Z_plus, inject_Z_mult.
      change (inject_Z 60) with 60. change (inject_Z 1) with 1.
      pose proof (Qlt_floor (remainder time 60)) as Hf. fold sec in Hf.
      rewrite inject_Z_plus in Hf. change (inject_Z 1) with 1 in Hf.
      rewrite Hrem in Hf. lra.
  - rewrite <- (Z2Nat.id sec) by exact Hsec0.
    apply two_digits. lia.
Qed.

Lemma formatTime_minutes_witness :
  exists minutes seconds : Z,
    formatTime 75 90
    = (integerToString minutes ++ ":"
       ++ padStart 2 "0" (integerToString seconds))%string
    /\ (0 <= minutes)%Z /\ (0 <= seconds < 60)%Z
    /\ (60 * minutes + seconds)%Z = Qfloor 75
    /\ String.length (padStart 2 "0" (integerToString seconds)) = 2%nat.
Proof.
  apply (formatTime_minutes 75 90); discriminate.
Defined.

(* ================================================================= *)
(** * The library, the preview and the edit selection *)

Lemma clearEditSelection_flags (e : EditorState) :
  flagsAgree (clearEditSelection e).
Proof.
  intros a Ha. simpl in Ha. apply in_map_iff in Ha as (a0 & <- & _).
  simpl. split; [discriminate | intros (x & Hx & _); discriminate Hx].
Qed.

Lemma drop_library (platform : Platform) (data : string) (dropTime : Q)
  (s : AppState) :
  exists f,
    (forall a, Media.id (f a) = Media.id a
               /\ Media.selectedForEdit (f a) = Media.selectedForEdit a)
    /\ libraryAssets (fst (handleDropOnTimeline platform data dropTime s))
       = map f (libraryAssets s).
Proof.
  assert (Hid : exists f : MediaAsset -> MediaAsset,
             (forall a, Media.id (f a) = Media.id a
                        /\ Media.selectedForEdit (f a)
                           = Media.selectedForEdit a)
             /\ libraryAssets s = map f (libraryAssets s)).
  { exists (fun a => a). split; [intro a; split; reflexivity|].
    symmetry. apply map_id. }
  drop_unfold. unfold getMediaDuration, setLibraryAssets, setTimelineAssets.
  destruct (JSON_parse platform data) as [parsed|e]; [|exact Hid].
  destruct parsed; simpl; try exact Hid.
  destruct (strictEqString (lookupMember "type" members) "libraryAsset");
    simpl; [|exact Hid].
  match goal with
  | |- context [find ?f (libraryAssets s)] =>
      destruct (find f (libraryAssets s)) as [a|]; simpl; [|exact Hid]
  end.
  destruct (Media.duration a) as [d|]; simpl; [exact Hid|].
  assert (Hmap : forall d : option Q,
             exists f : MediaAsset -> MediaAsset,
               (forall a, Media.id (f a) = Media.id a
                          /\ Media.selectedForEdit (f a)
                             = Media.selectedForEdit a)
               /\ map (fun a0 =>
                         if strictEqString (lookupMember "assetId" members)
                              (Media.id a0)
                         then withDuration a0 d else a0) (libraryAssets s)
                  = map f (libraryAssets s)).
  { intro d. eexists. split; [|reflexivity].
    intro a0. simpl. destruct (strictEqString _ _); split; reflexivity. }
  destruct (Media.type a); simpl;
    try (destruct (Hmap (Some 5)) as (f & Hf & E); exists f;
         split; [exact Hf | exact E]);
    match goal with
    | |- context [mediaElement platform ?u ?t] =>
        destruct (mediaElement platform u t) as [[d|]|]; simpl;
          try exact Hid;
          try (destruct (Hmap (Some d)) as (f & Hf & E); exists f;
               split; [exact Hf | exact E]);
          try (destruct (Hmap None) as (f & Hf & E); exists f;
               split; [exact Hf | exact E])
    end.
Qed.

Lemma editorStep_flags (e : EditorState) (event : EditorEvent) :
  flagsAgree e -> flagsAgree (editorStep e event).
Proof.
  intro Hinv.
  assert (Hselect : forall asset,
             flagsAgree (handleAssetSelectForEdit asset e)).
  { intro asset. unfold handleAssetSelectForEdit.
    destruct (isSelectedForEdit e asset); [apply clearEditSelection_flags|].
    intros a Ha. simpl in Ha. apply in_map_iff in Ha as (a0 & <- & _).
    simpl. destruct (String.eqb_spec (Media.id a0) (Media.id asset)) as [E|E];
      simpl.
    - split; [|reflexivity]. intros _. exists asset.
      split; [reflexivity | symmetry; exact E].
    - split; [discriminate|]. intros (x & Hx & Hid).
      injection Hx as <-. congruence. }
  destruct event as [asset | asset | asset | | | platform newAsset
                    | platform data dropTime | tid updates | tid];
    cbn [editorStep].
  - unfold handleSelectLibraryAsset.
    destruct (isSelectedForEdit e asset);
      [apply clearEditSelection_flags | exact Hinv].
  - exact Hinv.
  - apply Hselect.
  - unfold handleAssetClick.
    destruct (previewAsset e) as [[a|c]|];
      [apply Hselect | exact Hinv | exact Hinv].
  - apply clearEditSelection_flags.
  - unfold addAssetToLibrary.
    destruct (getMediaDuration platform _ _ (app e)) as [s' [d|err]];
      [apply clearEditSelection_flags | exact Hinv].
  - unfold dropOnTimeline.
    destruct (drop_library platform data dropTime (app e)) as (f & Hf & E).
    intros a Ha. cbn [app selectedAssetForEdit] in *.
    rewrite E in Ha. apply in_map_iff in Ha as (a0 & <- & Ha0).
    destruct (Hf a0) as [Hid Hflag]. rewrite Hid, Hflag.
    apply Hinv, Ha0.
  - exact Hinv.
  - exact Hinv.
Qed.

(** X21.  The flags of the library never disagree with the selection:
    after any sequence of selections, clicks on the preview, additions to
    the library (resolved or failed), drops, updates and removals, an asset
    of the library is flagged [selectedForEdit] exactly when the asset
    selected for edit has its [id]; so all flagged assets share one [id],
    and none is flagged when nothing is selected. *)
Theorem selection_flags_agree (events : list EditorEvent) :
  flagsAgree (editorRun events)
  /\ (forall a b,
        In a (libraryAssets (app (editorRun events))) ->
        In b (libraryAssets (app (editorRun events))) ->
        Media.selectedForEdit a = Some true ->
        Media.selectedForEdit b = Some true ->
        Media.id a = Media.id b)
  /\ (selectedAssetForEdit (editorRun events) = None ->
      forall a, In a (libraryAssets (app (editorRun events))) ->
        Media.selectedForEdit a <> Some true).
Proof.
  assert (Hinv : flagsAgree (editorRun events)).
  { unfold editorRun.
    assert (Hinit : flagsAgree initialEditor) by (intros a []).
    revert Hinit. generalize initialEditor.
    induction events as [|event events IH]; simpl; intros e He; [exact He|].
    apply IH, editorStep_flags, He. }
  split; [exact Hinv|split].
  - intros a b Ha Hb Hfa Hfb.
    apply (Hinv a Ha) in Hfa as (x & Hx & Hxa).
    apply (Hinv b Hb) in Hfb as (y & Hy & Hyb).
    congruence.
  - intros Hnone a Ha Hf. apply (Hinv a Ha) in Hf as (x & Hx & _).
    congruence.
Qed.

Lemma selection_flags_agree_witness :
  selectedAssetForEdit
    (editorRun
       [AddAssetToLibrary offline
          (Media.mk "" image "blob:i" None None None None None None);
        AssetClick; ClearEditSelection])
  = None
  /\ Media.selectedForEdit
       (withSelected
          (withSelected
             (withSelected
                (assetWithId offline
                   (Media.mk "" image "blob:i" None None None None None None)
                   (Some 5))
                false)
             true)
          false)
     <> Some true.
Proof.
  split; [reflexivity|].
  apply (proj2 (proj2 (selection_flags_agree
                         [AddAssetToLibrary offline
                            (Media.mk "" image "blob:i" None None None None
                               None None);
                          AssetClick; ClearEditSelection]))).
  - reflexivity.
  - left. reflexivity.
Defined.

(** X22.  [addAssetToLibrary] resolves the duration first.  When it
    resolves, the new asset, with the identifier [crypto.randomUUID()]
    returned and the resolved duration, is put in front of the library and
    becomes the preview, and the edit selection is cleared.  An image
    always resolves, to 5 seconds.  When the media element fails, the
    state is untouched and the error is thrown to the caller: unlike the
    drop handler, nothing catches it. *)
Theorem addAssetToLibrary_outcome (platform : Platform)
  (newAsset : MediaAsset) (e : EditorState) :
  (Media.type newAsset = image ->
   exists added,
     added = assetWithId platform newAsset (Some 5)
     /\ addAssetToLibrary platform newAsset e
        = (mkEditorState
             (setLibrary (app e)
                (withSelected added false
                 :: map (fun a => withSelected a false)
                      (libraryAssets (app e))))
             (Some (LibraryAsset (withSelected added false)))
             None,
           Normal tt))
  /\ (forall d,
        Media.type newAsset <> image ->
        mediaElement platform (Media.url newAsset) (Media.type newAsset)
        = loadedmetadata d ->
        addAssetToLibrary platform newAsset e
        = (mkEditorState
             (setLibrary (app e)
                (withSelected (assetWithId platform newAsset d) false
                 :: map (fun a => withSelected a false)
                      (libraryAssets (app e))))
             (Some (LibraryAsset
                      (withSelected (assetWithId platform newAsset d) false)))
             None,
           Normal tt))
  /\ (Media.type newAsset <> image ->
      mediaElement platform (Media.url newAsset) (Media.type newAsset)
      = error ->
      addAssetToLibrary platform newAsset e
      = (e, Throw (Error ("Failed to load media metadata for "
                          ++ Media.url newAsset)))).
Proof.
  unfold addAssetToLibrary, getMediaDuration, ret, throw.
  split; [|split].
  - intro Hi. rewrite Hi. eexists. split; reflexivity.
  - intros d Hi He. destruct (Media.type newAsset); try congruence;
      rewrite He; reflexivity.
  - intros Hi He. destruct (Media.type newAsset); try congruence;
      rewrite He; reflexivity.
Qed.

Lemma addAssetToLibrary_outcome_witness :
  addAssetToLibrary offline (libraryVideo "" None) initialEditor
  = (initialEditor,
     Throw (Error ("Failed to load media metadata for "
                   ++ Media.url (libraryVideo "" None)))).
Proof.
  apply (proj2 (proj2 (addAssetToLibrary_outcome offline
                         (libraryVideo "" None) initialEditor))).
  - discriminate.
  - reflexivity.
Defined.

(** X23.  Selecting for edit toggles.  Selecting an asset that is not the
    selected one makes it the selection and flags the assets of its [id];
    selecting it again, or clicking it in the library, clears the
    selection and every flag. *)
Theorem select_for_edit_toggles (asset : MediaAsset) (e : EditorState) :
  isSelectedForEdit e asset = false ->
  let e1 := handleAssetSelectForEdit asset e in
  selectedAssetForEdit e1 = Some asset
  /\ (forall a, In a (libraryAssets (app e1)) ->
        Media.selectedForEdit a
        = Some (String.eqb (Media.id a) (Media.id asset)))
  /\ selectedAssetForEdit (handleAssetSelectForEdit asset e1) = None
  /\ (forall a,
        In a (libraryAssets (app (handleAssetSelectForEdit asset e1))) ->
        Media.selectedForEdit a = Some false)
  /\ selectedAssetForEdit (handleSelectLibraryAsset asset e1) = None
  /\ (forall a,
        In a (libraryAssets (app (handleSelectLibraryAsset asset e1))) ->
        Media.selectedForEdit a = Some false)
  /\ map Media.id (libraryAssets (app (handleAssetSelectForEdit asset e1)))
     = map Media.id (libraryAssets (app e)).
Proof.
  intros Hno e1.
  assert (E1 : e1
               = {| app := setLibrary (app e)
                            (map (fun a =>
                                    if String.eqb (Media.id a) (Media.id asset)
                                    then withSelected a true
                                    else withSelected a false)
                               (libraryAssets (app e)));
                    previewAsset :=
                      match previewAsset e with
                      | Some prev =>
                          if String.eqb (assetId prev) (Media.id asset)
                          then Some (previewWithSelected prev true)
                          else Some prev
                      | None => None
                      end;
                    selectedAssetForEdit := Some asset |}).
  { unfold e1, handleAssetSelectForEdit. rewrite Hno. reflexivity. }
  assert (Hsel : isSelectedForEdit e1 asset = true).
  { rewrite E1. unfold isSelectedForEdit. simpl. apply String.eqb_refl. }
  unfold handleSelectLibraryAsset, handleAssetSelectForEdit.
  rewrite Hsel.
  split; [rewrite E1; reflexivity|].
  split.
  { intros a Ha. rewrite E1 in Ha. simpl in Ha.
    apply in_map_iff in Ha as (a0 & <- & _).
    destruct (String.eqb (Media.id a0) (Media.id asset)) eqn:E; simpl;
      rewrite E; reflexivity. }
  split; [reflexivity|].
  split.
  { intros a Ha. simpl in Ha. apply in_map_iff in Ha as (a0 & <- & _).
    reflexivity. }
  split; [reflexivity|].
  split.
  { intros a Ha. simpl in Ha. apply in_map_iff in Ha as (a0 & <- & _).
    reflexivity. }
  rewrite E1. simpl. rewrite !map_map. apply map_ext. intro a.
  destruct (String.eqb (Media.id a) (Media.id asset)); reflexivity.
Qed.

Lemma select_for_edit_toggles_witness :
  selectedAssetForEdit
    (handleAssetSelectForEdit pendingVideo
       (handleAssetSelectForEdit pendingVideo
          (mkEditorState (editor [pendingVideo] []) None None)))
  = None.
Proof.
  apply (select_for_edit_toggles pendingVideo
           (mkEditorState (editor [pendingVideo] []) None None)).
  reflexivity.
Defined.

(* ================================================================= *)
(** * The operations together *)

(** X24.  The timeline of the editor is sorted by [startTime] in every
    state it can reach: after any sequence of drops, updates, removals,
    selections and additions to the library, starting from the empty
    editor. *)
Theorem timeline_always_sorted (events : list EditorEvent) :
  sortedByStartTime (timelineAssets (app (editorRun events))).
Proof.
  unfold editorRun.
  assert (Hinit : sortedByStartTime (timelineAssets (app initialEditor)))
    by constructor.
  revert Hinit. generalize initialEditor.
  induction events as [|event events IH]; simpl; intros e He; [exact He|].
  apply IH.
  destruct event as [asset | asset | asset | | | platform newAsset
                    | platform data dropTime | tid updates | tid];
    cbn [editorStep].
  - unfold handleSelectLibraryAsset.
    destruct (isSelectedForEdit e asset); exact He.
  - exact He.
  - unfold handleAssetSelectForEdit.
    destruct (isSelectedForEdit e asset); exact He.
  - unfold handleAssetClick, handleAssetSelectForEdit.
    destruct (previewAsset e) as [[a|c]|]; try exact He.
    destruct (isSelectedForEdit e a); exact He.
  - exact He.
  - unfold addAssetToLibrary.
    destruct (getMediaDuration platform _ _ (app e)) as [s' [d|err]];
      exact He.
  - unfold dropOnTimeline. cbn [app].
    destruct (drop_outcome platform data dropTime (app e))
      as [_ [E | (a & d & E)]]; rewrite E;
      [exact He | apply sort_sorted].
  - apply sort_sorted.
  - apply filter_sorted, He.
Qed.





(** X27.  A trim does not slide the content.  After an accepted drag of
    the left edge that stays within the head of the source, and after any
    accepted drag of the right edge, the offset into the source shown at a
    playhead position is what it was before: only the visible window
    changes. *)
Theorem trim_keeps_content_in_place (resizeState : ResizeState)
  (asset : TimelineAsset) (zoom clientX : Q) (tid : string)
  (updates : PartialTimelineAsset) (t : Q) :
  handleMouseMove resizeState asset zoom clientX = Some (tid, updates) ->
  (side resizeState = side_left ->
   0 <= trimStart asset
        + (clientX - startX resizeState) / (PIXELS_PER_SECOND * zoom)) ->
  effectiveTime t (spread asset updates) == effectiveTime t asset.
Proof.
  destruct resizeState as [[|] x0]; cbn [side startX].
  - rewrite handleMouseMove_left. cbv zeta.
    destruct (Qle_bool 0 _ && _); [|discriminate].
    intro H. injection H as <- <-. intro H0.
    unfold effectiveTime. simpl.
    rewrite (Q.max_r 0 _ (H0 eq_refl)). ring.
  - rewrite handleMouseMove_right. cbv zeta.
    destruct (negb _); [|discriminate].
    intro H. injection H as <- <-. intros _.
    unfold effectiveTime. simpl. reflexivity.
Qed.

Lemma trim_keeps_content_in_place_witness :
  effectiveTime 6
    (spread tenSeconds
       (leftTrimUpdate (Qmax 0 (0 + (250 - 100) / (PIXELS_PER_SECOND * 1)))
          (2 + (250 - 100) / (PIXELS_PER_SECOND * 1))))
  == effectiveTime 6 tenSeconds.
Proof.
  apply (trim_keeps_content_in_place (mkResizeState side_left 100)
           tenSeconds 1 250 "t1"
           (leftTrimUpdate
              (Qmax 0 (0 + (250 - 100) / (PIXELS_PER_SECOND * 1)))
              (2 + (250 - 100) / (PIXELS_PER_SECOND * 1)))
           6).
  - reflexivity.
  - intros _. vm_compute. discriminate.
Defined.
